(** * web-client-ui: the grid KeyHandler contract and the IrisGridCopyHandler
      copy-to-clipboard controller

    Sources embedded here:
    - packages/grid/src/KeyHandler.ts
    - packages/iris-grid/src/IrisGridCopyHandler.tsx

    The component is a class with a React state object, three mutable
    instance fields (textData, hideTimer, fetchPromise) and three places
    where an async method is suspended on an [await].  It is embedded as a
    state monad over a [Machine]: the component together with the part of
    the browser it talks to (promises that are still pending, timers that
    are still scheduled, clipboard writes in flight) and the trace of calls
    it made to its collaborators.  Each method keeps its name; the tail of
    an async method after an [await] is a definition of its own, run by
    [dispatch] when the awaited promise settles. *)

From Stdlib Require Import ZArith List String Ascii Bool Lia.
From Stdlib Require Import DecimalString.
Import ListNotations.
Open Scope Z_scope.
Open Scope string_scope.

Set Implicit Arguments.

(* ================================================================== *)
(** * packages/grid/src/KeyHandler.ts *)
(* ================================================================== *)

Module KeyHandler.

(** [class KeyHandler { order: number; ... }] *)
Record KeyHandler : Type := Build { order : Z }.

(** [constructor(order = 5000)]: the argument is optional, an omitted (or
    undefined) argument takes the default. *)
Definition new (order : option Z) : KeyHandler :=
  match order with
  | Some o => Build o
  | None => Build 5000
  end.

Section OnDown.
(** [GridKeyboardEvent] and [Grid] are only passed through. *)
Variables GridKeyboardEvent Grid : Type.

(** [onDown(event, grid): EventHandlerResult { return false; }] *)
Definition onDown (self : KeyHandler) (event : GridKeyboardEvent)
               (grid : Grid) : bool := false.
End OnDown.

End KeyHandler.

(* ================================================================== *)
(** * packages/iris-grid/src/IrisGridCopyHandler.tsx *)
(* ================================================================== *)

(** ** Collaborators

    The grid geometry ([GridRange], [GridUtils], [IrisGridUtils]), the data
    model and the number formatting of the host are imported by the
    component; they are taken as an interface. JavaScript numbers that the
    component handles are row counts, column indexes and depths: [Z]. (A
    row count that is not a number fails the test [rowCount > 10000] as a
    count of at most 10000 does.) *)
Class Collaborators : Type := {
  GridRange : Type;
  MoveOperation : Type;
  ModelSizeMap : Type;
  (** [GridRange.rowCount(ranges)] *)
  GridRange_rowCount : list GridRange -> Z;
  (** [GridRange.makeColumn(column)] *)
  GridRange_makeColumn : Z -> GridRange;
  (** [GridRange.subtractRangesFromRanges(ranges, subtractRanges)] *)
  GridRange_subtractRangesFromRanges :
    list GridRange -> list GridRange -> list GridRange;
  (** [GridUtils.getModelIndex(visibleIndex, movedItems)] *)
  GridUtils_getModelIndex : Z -> list MoveOperation -> Z;
  (** [GridUtils.getModelRanges(ranges, movedColumns)] *)
  GridUtils_getModelRanges :
    list GridRange -> list MoveOperation -> list GridRange;
  (** [IrisGridUtils.getHiddenColumns(userColumnWidths)] *)
  IrisGridUtils_getHiddenColumns : ModelSizeMap -> list Z;
  (** [model.textForColumnHeader(column, depth): string | undefined] *)
  model_textForColumnHeader : Z -> Z -> option string;
  (** [Number.prototype.toLocaleString()] in the locale of the host *)
  toLocaleString : Z -> string
}.

(** [static COPY_STATES] *)
Inductive CopyState : Type :=
| IDLE
| CONFIRMATION_REQUIRED
| FETCH_RANGES_IN_PROGRESS
| FETCH_HEADER_IN_PROGRESS
| FETCH_ERROR
| CLICK_REQUIRED
| DONE.

(** [static BUTTON_STATES] *)
Inductive ButtonState : Type :=
| COPY
| FETCH_IN_PROGRESS
| CLICK_TO_COPY
| RETRY.

Definition CopyState_eqb (a b : CopyState) : bool :=
  match a, b with
  | IDLE, IDLE | CONFIRMATION_REQUIRED, CONFIRMATION_REQUIRED
  | FETCH_RANGES_IN_PROGRESS, FETCH_RANGES_IN_PROGRESS
  | FETCH_HEADER_IN_PROGRESS, FETCH_HEADER_IN_PROGRESS
  | FETCH_ERROR, FETCH_ERROR | CLICK_REQUIRED, CLICK_REQUIRED
  | DONE, DONE => true
  | _, _ => false
  end.

Definition NO_PROMPT_THRESHOLD : Z := 10000.
Definition HIDE_TIMEOUT : Z := 3000.

(** The formatter handed to [model.textSnapshot] (lines 358-362): the
    model's [displayString] per column, or the template string. *)
Inductive Formatter : Type :=
| DisplayString
| TemplateString.

Definition PromiseId := nat.
Definition TimerId := nat.
Definition WriteId := nat.

Section CopyHandler.

Context {X : Collaborators}.

(** [CopyOperation = CopyRangesOperation | CopyHeaderOperation] is a union
    of object types told apart at run time by which field is present
    (lines 48-58), so an operation is an object whose variant fields may or
    may not be there. A field the type makes non-nullable and that no
    presence test reads is kept plain: where the variant lacks it, no path
    of the component reads it. *)
Record CopyOperation : Type := {
  movedColumns : list MoveOperation;
  op_error : option string;
  ranges : option (list GridRange);
  includeHeaders : bool;
  formatValues : option bool;
  userColumnWidths : ModelSizeMap;
  columnIndex : option Z;
  columnDepth : Z
}.

(** [(copyOperation as CopyRangesOperation).ranges != null] *)
Definition isCopyRangesOperation (copyOperation : CopyOperation) : bool :=
  match ranges copyOperation with
  | Some _ => true
  | None => false
  end.

(** [(copyOperation as CopyHeaderOperation).columnIndex != null] *)
Definition isCopyHeaderOperation (copyOperation : CopyOperation) : bool :=
  match columnIndex copyOperation with
  | Some _ => true
  | None => false
  end.

(** [interface IrisGridCopyHandlerState] *)
Record State : Type := {
  error : option string;
  copyState : CopyState;
  buttonState : ButtonState;
  isShown : bool;
  rowCount : Z
}.

(** The partial objects passed to [setState], one updater per field. *)
Definition with_error (e : option string) (s : State) : State :=
  {| error := e; copyState := copyState s; buttonState := buttonState s;
     isShown := isShown s; rowCount := rowCount s |}.
Definition with_copyState (c : CopyState) (s : State) : State :=
  {| error := error s; copyState := c; buttonState := buttonState s;
     isShown := isShown s; rowCount := rowCount s |}.
Definition with_buttonState (b : ButtonState) (s : State) : State :=
  {| error := error s; copyState := copyState s; buttonState := b;
     isShown := isShown s; rowCount := rowCount s |}.
Definition with_isShown (v : bool) (s : State) : State :=
  {| error := error s; copyState := copyState s; buttonState := buttonState s;
     isShown := v; rowCount := rowCount s |}.
Definition with_rowCount (n : Z) (s : State) : State :=
  {| error := error s; copyState := copyState s; buttonState := buttonState s;
     isShown := isShown s; rowCount := n |}.

(** [static getStatusMessageText(copyState, rowCount)] *)
Definition getStatusMessageText (copyState : CopyState) (rowCount : Z)
  : string :=
  match copyState with
  | CONFIRMATION_REQUIRED =>
      "Are you sure you want to copy " ++ toLocaleString rowCount
        ++ " rows to your clipboard?"
  | CLICK_REQUIRED => "Fetched " ++ toLocaleString rowCount ++ " rows!"
  | FETCH_ERROR => "Unable to copy data."
  | FETCH_RANGES_IN_PROGRESS =>
      "Fetching " ++ toLocaleString rowCount ++ " rows for clipboard..."
  | FETCH_HEADER_IN_PROGRESS => "Fetching header for clipboard..."
  | DONE => "Copied to Clipboard!"
  | IDLE => ""
  end.

(** [static getCopyButtonText(buttonState)] *)
Definition getCopyButtonText (buttonState : ButtonState) : string :=
  match buttonState with
  | FETCH_IN_PROGRESS => "Fetching"
  | CLICK_TO_COPY => "Click to Copy"
  | RETRY => "Retry"
  | COPY => "Copy"
  end.

(** [render]: [error ?? getStatusMessageText(copyState, rowCount)] *)
Definition statusMessageText (s : State) : string :=
  match error s with
  | Some e => e
  | None => getStatusMessageText (copyState s) (rowCount s)
  end.

(** [render]: [copyState !== COPY_STATES.DONE] *)
Definition isButtonContainerVisible (s : State) : bool :=
  negb (CopyState_eqb (copyState s) DONE).

(** ** The browser side *)

(** What a promise made by [PromiseUtils.makeCancelable] wraps: the text of
    a header, which is already there (line 331), or the promise of
    [model.textSnapshot] (line 364), settled by the model later. *)
Inductive Wrapped : Type :=
| HeaderText (copyText : string)
| TextSnapshot (modelRanges : list GridRange) (includeHeaders : bool)
               (formatValue : Formatter).

(** The two callers of [copyText], each suspended on it. *)
Inductive CopySite : Type :=
| InStartFetch       (* line 373 *)
| InHandleCopyClick. (* line 273 *)

(** Calls that leave the component; [UnhandledRejection] stands for an
    async method that threw, its promise rejected with no handler. *)
Inductive Effect : Type :=
| MakeCancelable (p : PromiseId) (w : Wrapped)
| Cancel (p : PromiseId)
| CopyToClipboard (w : WriteId) (text : string)
| SetTimeout (t : TimerId) (delay : Z)
| ClearTimeout (t : TimerId)
| UnhandledRejection.

Definition isFetch (e : Effect) : bool :=
  match e with MakeCancelable _ _ => true | _ => false end.
Definition isClipboardWrite (e : Effect) : bool :=
  match e with CopyToClipboard _ _ => true | _ => false end.
Definition isSetTimeout (e : Effect) : bool :=
  match e with SetTimeout _ _ => true | _ => false end.

Record Machine : Type := {
  (** [this.props.copyOperation] *)
  props_copyOperation : option CopyOperation;
  (** [this.state] *)
  state : State;
  (** [textData?: string] *)
  textData : option string;
  (** [hideTimer?: ReturnType<typeof setTimeout>] *)
  hideTimer : option TimerId;
  (** [fetchPromise?: CancelablePromise<string>] *)
  fetchPromise : option PromiseId;
  (** next unused handle *)
  fresh : nat;
  (** cancelable promises made and neither settled nor cancelled, each
      awaited at line 370 *)
  fetches : list (PromiseId * Wrapped);
  (** cancelled promises whose awaiter has not yet been resumed *)
  cancelled : list PromiseId;
  (** clipboard writes in flight, with the text and the suspended caller *)
  writes : list (WriteId * (string * CopySite));
  (** timers scheduled and neither fired nor cleared *)
  timers : list TimerId;
  (** calls made so far, latest first *)
  trace : list Effect
}.

(** Field assignment, one per field of [Machine]. *)
Definition set_props_copyOperation (v : option CopyOperation)
           (m : Machine) : Machine :=
  {| props_copyOperation := v; state := state m; textData := textData m;
     hideTimer := hideTimer m; fetchPromise := fetchPromise m;
     fresh := fresh m; fetches := fetches m; cancelled := cancelled m;
     writes := writes m; timers := timers m; trace := trace m |}.
Definition set_state (v : State) (m : Machine) : Machine :=
  {| props_copyOperation := props_copyOperation m; state := v;
     textData := textData m; hideTimer := hideTimer m;
     fetchPromise := fetchPromise m; fresh := fresh m; fetches := fetches m;
     cancelled := cancelled m; writes := writes m; timers := timers m;
     trace := trace m |}.
Definition set_textData (v : option string) (m : Machine) : Machine :=
  {| props_copyOperation := props_copyOperation m; state := state m;
     textData := v; hideTimer := hideTimer m; fetchPromise := fetchPromise m;
     fresh := fresh m; fetches := fetches m; cancelled := cancelled m;
     writes := writes m; timers := timers m; trace := trace m |}.
Definition set_hideTimer (v : option TimerId) (m : Machine) : Machine :=
  {| props_copyOperation := props_copyOperation m; state := state m;
     textData := textData m; hideTimer := v; fetchPromise := fetchPromise m;
     fresh := fresh m; fetches := fetches m; cancelled := cancelled m;
     writes := writes m; timers := timers m; trace := trace m |}.
Definition set_fetchPromise (v : option PromiseId) (m : Machine) : Machine :=
  {| props_copyOperation := props_copyOperation m; state := state m;
     textData := textData m; hideTimer := hideTimer m; fetchPromise := v;
     fresh := fresh m; fetches := fetches m; cancelled := cancelled m;
     writes := writes m; timers := timers m; trace := trace m |}.
Definition set_fresh (v : nat) (m : Machine) : Machine :=
  {| props_copyOperation := props_copyOperation m; state := state m;
     textData := textData m; hideTimer := hideTimer m;
     fetchPromise := fetchPromise m; fresh := v; fetches := fetches m;
     cancelled := cancelled m; writes := writes m; timers := timers m;
     trace := trace m |}.
Definition set_fetches (v : list (PromiseId * Wrapped))
           (m : Machine) : Machine :=
  {| props_copyOperation := props_copyOperation m; state := state m;
     textData := textData m; hideTimer := hideTimer m;
     fetchPromise := fetchPromise m; fresh := fresh m; fetches := v;
     cancelled := cancelled m; writes := writes m; timers := timers m;
     trace := trace m |}.
Definition set_cancelled (v : list PromiseId) (m : Machine) : Machine :=
  {| props_copyOperation := props_copyOperation m; state := state m;
     textData := textData m; hideTimer := hideTimer m;
     fetchPromise := fetchPromise m; fresh := fresh m; fetches := fetches m;
     cancelled := v; writes := writes m; timers := timers m;
     trace := trace m |}.
Definition set_writes (v : list (WriteId * (string * CopySite)))
           (m : Machine) : Machine :=
  {| props_copyOperation := props_copyOperation m; state := state m;
     textData := textData m; hideTimer := hideTimer m;
     fetchPromise := fetchPromise m; fresh := fresh m; fetches := fetches m;
     cancelled := cancelled m; writes := v; timers := timers m;
     trace := trace m |}.
Definition set_timers (v : list TimerId) (m : Machine) : Machine :=
  {| props_copyOperation := props_copyOperation m; state := state m;
     textData := textData m; hideTimer := hideTimer m;
     fetchPromise := fetchPromise m; fresh := fresh m; fetches := fetches m;
     cancelled := cancelled m; writes := writes m; timers := v;
     trace := trace m |}.
Definition set_trace (v : list Effect) (m : Machine) : Machine :=
  {| props_copyOperation := props_copyOperation m; state := state m;
     textData := textData m; hideTimer := hideTimer m;
     fetchPromise := fetchPromise m; fresh := fresh m; fetches := fetches m;
     cancelled := cancelled m; writes := writes m; timers := timers m;
     trace := v |}.

(** ** The monad of the component's methods *)

Definition M (A : Type) : Type := Machine -> A * Machine.

Definition ret {A : Type} (a : A) : M A := fun m => (a, m).
Definition bind {A B : Type} (c : M A) (k : A -> M B) : M B :=
  fun m => let (a, m') := c m in k a m'.
Definition gets {A : Type} (f : Machine -> A) : M A := fun m => (f m, m).
Definition modify (f : Machine -> Machine) : M unit := fun m => (tt, f m).
Definition exec {A : Type} (c : M A) (m : Machine) : Machine := snd (c m).

Notation "x <- c1 ;; c2" := (bind c1 (fun x => c2))
  (at level 61, c1 at next level, right associativity).
Notation "c1 ;; c2" := (bind c1 (fun _ => c2))
  (at level 61, right associativity).

(** [this.setState(partial)]: the partial object is merged into the state.
    React batches the merge; no method reads [this.state] after a
    [setState] of its own, so merging at once gives the same state. *)
Definition setState (partial : State -> State) : M unit :=
  modify (fun m => set_state (partial (state m)) m).

Definition call (e : Effect) : M unit :=
  modify (fun m => set_trace (e :: trace m) m).

Definition newHandle : M nat :=
  fun m => (fresh m, set_fresh (S (fresh m)) m).

Definition without {A : Type} (k : nat) (l : list (nat * A))
  : list (nat * A) :=
  filter (fun e => negb (Nat.eqb (fst e) k)) l.

Definition has {A : Type} (k : nat) (l : list (nat * A)) : bool :=
  existsb (fun e => Nat.eqb (fst e) k) l.

Definition mem (k : nat) (l : list nat) : bool := existsb (Nat.eqb k) l.

Definition drop (k : nat) (l : list nat) : list nat :=
  filter (fun k' => negb (Nat.eqb k' k)) l.

Fixpoint find_handle {A : Type} (k : nat) (l : list (nat * A)) : option A :=
  match l with
  | [] => None
  | (k', a) :: l' => if Nat.eqb k' k then Some a else find_handle k l'
  end.

(** [PromiseUtils.makeCancelable(wrapped)]: a new pending promise. *)
Definition makeCancelable (w : Wrapped) : M PromiseId :=
  p <- newHandle ;;
  call (MakeCancelable p w) ;;
  modify (fun m => set_fetches ((p, w) :: fetches m) m) ;;
  ret p.

(** [promise.cancel()]: a pending promise rejects with a
    [CanceledPromiseError], which its awaiter receives later; on a promise
    that has settled there is nothing left to reject. *)
Definition cancel (p : PromiseId) : M unit :=
  call (Cancel p) ;;
  modify (fun m =>
    if has p (fetches m)
    then set_cancelled (p :: cancelled m)
           (set_fetches (without p (fetches m)) m)
    else m).

(** [setTimeout(handler, delay)] *)
Definition setTimeout (delay : Z) : M TimerId :=
  t <- newHandle ;;
  call (SetTimeout t delay) ;;
  modify (fun m => set_timers (t :: timers m) m) ;;
  ret t.

(** [clearTimeout(timer)] *)
Definition clearTimeout (t : TimerId) : M unit :=
  call (ClearTimeout t) ;;
  modify (fun m => set_timers (drop t (timers m)) m).

(** [copyToClipboard(text)], awaited by [site] through [copyText]. *)
Definition copyToClipboard (text : string) (site : CopySite) : M unit :=
  w <- newHandle ;;
  call (CopyToClipboard w text) ;;
  modify (fun m => set_writes ((w, (text, site)) :: writes m) m).

(** ** Methods of [IrisGridCopyHandler] *)

(** [stopHideTimer()] (lines 413-418) *)
Definition stopHideTimer : M unit :=
  ht <- gets hideTimer ;;
  match ht with
  | Some t => clearTimeout t ;; modify (set_hideTimer None)
  | None => ret tt
  end.

(** [startHideTimer()] (lines 404-411) *)
Definition startHideTimer : M unit :=
  stopHideTimer ;;
  t <- setTimeout HIDE_TIMEOUT ;;
  modify (set_hideTimer (Some t)).

(** [stopFetch()] (lines 396-402) *)
Definition stopFetch : M unit :=
  fp <- gets fetchPromise ;;
  match fp with
  | Some p => cancel p ;; modify (set_fetchPromise None)
  | None => ret tt
  end.

(** [copyText(text)] (lines 294-300), up to its [await]. *)
Definition copyText (text : string) (site : CopySite) : M unit :=
  modify (set_textData (Some text)) ;;
  copyToClipboard text site.

(** [showCopyDone()] (lines 302-305) *)
Definition showCopyDone : M unit :=
  setState (with_copyState DONE) ;;
  startHideTimer.

(** [formatValues != null && formatValues ? displayString : template] *)
Definition chooseFormatter (formatValues : option bool) : Formatter :=
  match formatValues with
  | Some true => DisplayString
  | _ => TemplateString
  end.

(** Lines 347-355 of [startFetch()]: the model ranges of the selection,
    less the hidden columns. *)
Definition visibleModelRanges (ranges : list GridRange)
           (userColumnWidths : ModelSizeMap)
           (movedColumns : list MoveOperation) : list GridRange :=
  let hiddenColumns := IrisGridUtils_getHiddenColumns userColumnWidths in
  let modelRanges := GridUtils_getModelRanges ranges movedColumns in
  if (0 <? Z.of_nat (List.length hiddenColumns))%Z
  then GridRange_subtractRangesFromRanges modelRanges
         (map GridRange_makeColumn hiddenColumns)
  else modelRanges.

(** [startFetch()] (lines 307-367), up to [await this.fetchPromise].
    The method is async: what it throws rejects the promise it returns,
    which no caller awaits or handles. It throws on a null
    [copyOperation], whose property [isCopyHeaderOperation] reads. The
    branch with neither [columnIndex] nor [ranges] is outside the type of
    [copyOperation]: there [GridUtils.getModelRanges] is handed undefined. *)
Definition startFetch : M unit :=
  stopFetch ;;
  copyOperation <- gets props_copyOperation ;;
  match copyOperation with
  | None => call UnhandledRejection
  | Some copyOperation =>
    match columnIndex copyOperation with
    | Some columnIndex =>
      setState (fun s =>
        with_copyState FETCH_HEADER_IN_PROGRESS
          (with_buttonState FETCH_IN_PROGRESS s)) ;;
      let modelIndex :=
        GridUtils_getModelIndex columnIndex (movedColumns copyOperation) in
      match
        model_textForColumnHeader modelIndex (columnDepth copyOperation)
      with
      | None =>
        modify (set_fetchPromise None) ;;
        setState (fun s =>
          with_copyState DONE
            (with_error (Some "Invalid column header selected.") s))
      | Some copyText =>
        p <- makeCancelable (HeaderText copyText) ;;
        modify (set_fetchPromise (Some p))
      end
    | None =>
      setState (fun s =>
        with_copyState FETCH_RANGES_IN_PROGRESS
          (with_buttonState FETCH_IN_PROGRESS s)) ;;
      match ranges copyOperation with
      | None => call UnhandledRejection
      | Some ranges =>
        let modelRanges :=
          visibleModelRanges ranges (userColumnWidths copyOperation)
                             (movedColumns copyOperation) in
        let formatValue := chooseFormatter (formatValues copyOperation) in
        p <- makeCancelable
               (TextSnapshot modelRanges (includeHeaders copyOperation)
                             formatValue) ;;
        modify (set_fetchPromise (Some p))
      end
    end
  end.

(** What a rejected [fetchPromise] throws into its awaiter: the
    [CanceledPromiseError] of [cancel()], or whatever the model threw. *)
Inductive Thrown : Type :=
| CanceledPromiseError
| OtherError.

(** [e instanceof CanceledPromiseError] *)
Definition instanceofCanceledPromiseError (e : Thrown) : bool :=
  match e with
  | CanceledPromiseError => true
  | OtherError => false
  end.

(** How the awaited [fetchPromise] settles. *)
Inductive Settled : Type :=
| Fulfilled (text : string)
| Rejected (e : Thrown).

(** [startFetch()] from line 370 on, with the outcome of the [await], up
    to the [await] of [copyText] at line 373. *)
Definition startFetch_settled (outcome : Settled) : M unit :=
  match outcome with
  | Fulfilled text =>
    modify (set_fetchPromise None) ;;
    copyText text InStartFetch
  | Rejected e =>
    if instanceofCanceledPromiseError e
    then ret tt
    else
      modify (set_fetchPromise None) ;;
      setState (fun s =>
        with_copyState FETCH_ERROR (with_buttonState RETRY s))
  end.

(** [startFetch()] from line 373 on: [copied] tells whether the clipboard
    write resolved. *)
Definition startFetch_copied (copied : bool) : M unit :=
  if copied
  then showCopyDone
  else setState (fun s =>
         with_copyState CLICK_REQUIRED (with_buttonState CLICK_TO_COPY s)).

(** [stopCopy()] (lines 246-250) *)
Definition stopCopy : M unit :=
  modify (set_textData None) ;;
  stopFetch ;;
  stopHideTimer.

(** [startCopy()] (lines 203-244) *)
Definition startCopy : M unit :=
  stopCopy ;;
  copyOperation <- gets props_copyOperation ;;
  match copyOperation with
  | None => setState (with_isShown false)
  | Some copyOperation =>
    match op_error copyOperation with
    | Some error =>
      setState (fun s =>
        with_error (Some error) (with_copyState DONE (with_isShown true s))) ;;
      startHideTimer
    | None =>
      setState (fun s => with_error None (with_isShown true s)) ;;
      match ranges copyOperation with
      | Some ranges =>
        let rowCount := GridRange_rowCount ranges in
        setState (with_rowCount rowCount) ;;
        if (rowCount >? NO_PROMPT_THRESHOLD)%Z
        then setState (fun s =>
               with_copyState CONFIRMATION_REQUIRED (with_buttonState COPY s))
        else startFetch
      | None => startFetch
      end
    end
  end.

(** [handleBackgroundClick()] (lines 252-259) *)
Definition handleBackgroundClick : M unit :=
  s <- gets state ;;
  if CopyState_eqb (copyState s) DONE
  then setState (with_isShown false)
  else ret tt.

(** [handleCancelClick()] (lines 261-266) *)
Definition handleCancelClick : M unit :=
  stopFetch ;;
  setState (with_isShown false).

(** [handleCopyClick()] (lines 268-284), up to its [await]. *)
Definition handleCopyClick : M unit :=
  td <- gets textData ;;
  match td with
  | Some text => copyText text InHandleCopyClick
  | None => startFetch
  end.

(** [handleCopyClick()] from line 273 on. *)
Definition handleCopyClick_copied (copied : bool) : M unit :=
  if copied
  then showCopyDone
  else setState
         (with_error (Some "Unable to copy. Verify your browser permissions.")).

(** [handleHideTimeout()] (lines 286-292) *)
Definition handleHideTimeout : M unit :=
  stopHideTimer ;;
  setState (with_isShown false).

(** [componentDidMount()] (lines 179-184) *)
Definition componentDidMount : M unit :=
  copyOperation <- gets props_copyOperation ;;
  match copyOperation with
  | Some _ => startCopy
  | None => ret tt
  end.

(** [prevProps.copyOperation !== copyOperation]: operations are compared by
    reference. Every operation handed over is a new object, so only null
    is the same as what was there before. *)
Definition sameReference (prev next : option CopyOperation) : bool :=
  match prev, next with
  | None, None => true
  | _, _ => false
  end.

(** [componentDidUpdate(prevProps)] (lines 186-191), after the props were
    replaced by [next]. *)
Definition componentDidUpdate (next : option CopyOperation) : M unit :=
  prev <- gets props_copyOperation ;;
  modify (set_props_copyOperation next) ;;
  if sameReference prev next then ret tt else startCopy.

(** [componentWillUnmount()] (lines 193-195) *)
Definition componentWillUnmount : M unit := stopCopy.

(** The component after its constructor (lines 162-177). *)
Definition constructed (copyOperation : option CopyOperation) : Machine :=
  {| props_copyOperation := copyOperation;
     state := {| error := None; copyState := IDLE; buttonState := COPY;
                 isShown := false; rowCount := 0 |};
     textData := None; hideTimer := None; fetchPromise := None;
     fresh := 0%nat; fetches := []; cancelled := []; writes := [];
     timers := []; trace := [] |}.

(** The component mounted: constructed, then [componentDidMount]. *)
Definition mounted (copyOperation : option CopyOperation) : Machine :=
  exec componentDidMount (constructed copyOperation).

(** ** What happens to a mounted component *)

Inductive Event : Type :=
| PropsChanged (next : option CopyOperation)
| Unmounting
| BackgroundClick
| CancelClick
| CopyClick
| TimerFired (t : TimerId)
| FetchFulfilled (p : PromiseId) (text : string)
| FetchRejected (p : PromiseId)
| CancelObserved (p : PromiseId)
| ClipboardSettled (w : WriteId) (copied : bool).

(** One turn of the event loop. An event that cannot occur in [m] (a
    timer that is not scheduled, a promise that is not pending, a header
    promise settling with anything but its text) gives [None]. A promise
    settling and its awaiter resuming are one turn: the awaiter runs from
    the microtask queue before any other event is handled. *)
Definition dispatch (ev : Event) (m : Machine) : option Machine :=
  match ev with
  | PropsChanged next => Some (exec (componentDidUpdate next) m)
  | Unmounting => Some (exec componentWillUnmount m)
  | BackgroundClick => Some (exec handleBackgroundClick m)
  | CancelClick => Some (exec handleCancelClick m)
  | CopyClick => Some (exec handleCopyClick m)
  | TimerFired t =>
    if mem t (timers m)
    then Some (exec handleHideTimeout (set_timers (drop t (timers m)) m))
    else None
  | FetchFulfilled p text =>
    let resume :=
      Some (exec (startFetch_settled (Fulfilled text))
                 (set_fetches (without p (fetches m)) m)) in
    match find_handle p (fetches m) with
    | Some (HeaderText copyText) =>
      if String.eqb copyText text then resume else None
    | Some (TextSnapshot _ _ _) => resume
    | None => None
    end
  | FetchRejected p =>
    match find_handle p (fetches m) with
    | Some (TextSnapshot _ _ _) =>
      Some (exec (startFetch_settled (Rejected OtherError))
                 (set_fetches (without p (fetches m)) m))
    | _ => None
    end
  | CancelObserved p =>
    if mem p (cancelled m)
    then Some (exec (startFetch_settled (Rejected CanceledPromiseError))
                    (set_cancelled (drop p (cancelled m)) m))
    else None
  | ClipboardSettled w copied =>
    match find_handle w (writes m) with
    | Some (_, InStartFetch) =>
      Some (exec (startFetch_copied copied)
                 (set_writes (without w (writes m)) m))
    | Some (_, InHandleCopyClick) =>
      Some (exec (handleCopyClick_copied copied)
                 (set_writes (without w (writes m)) m))
    | None => None
    end
  end.

(** The states a component can be in: mounted, then any events. *)
Inductive reachable : Machine -> Prop :=
| reachable_mounted (copyOperation : option CopyOperation) :
    reachable (mounted copyOperation)
| reachable_dispatch (m m' : Machine) (ev : Event) :
    reachable m -> dispatch ev m = Some m' -> reachable m'.

(** The calls a method makes when run in [m], latest first: what it
    leaves on an emptied trace. No method reads the trace. *)
Definition calls {A : Type} (c : M A) (m : Machine) : list Effect :=
  trace (exec c (set_trace [] m)).

Definition noneOf (p : Effect -> bool) (l : list Effect) : Prop :=
  forallb (fun e => negb (p e)) l = true.

(** The handles of the promises still pending, and what
    [this.fetchPromise] and [this.hideTimer] hold, as lists. *)
Definition outstandingFetches (m : Machine) : list PromiseId :=
  map fst (fetches m).

Definition held (h : option nat) : list nat :=
  match h with
  | Some k => [k]
  | None => []
  end.

(** What holds of every state the component reaches. [Tracked]: the only
    pending fetch is the one [this.fetchPromise] holds, the only scheduled
    timer the one [this.hideTimer] holds, handles in use are below the
    next unused one, and a fetch is never pending in [FETCH_ERROR].
    [Invariant]: moreover the row count in the state is that of the ranges
    of the current operation, when it has ranges and no preset error. *)
Record Tracked (m : Machine) : Prop := {
  inv_fetch : outstandingFetches m = held (fetchPromise m);
  inv_timer : timers m = held (hideTimer m);
  inv_fetch_fresh : forall p, fetchPromise m = Some p -> (p < fresh m)%nat;
  inv_timer_fresh : forall t, hideTimer m = Some t -> (t < fresh m)%nat;
  inv_fetch_error : fetches m <> [] -> copyState (state m) <> FETCH_ERROR
}.

Record Invariant (m : Machine) : Prop := {
  inv_tracked : Tracked m;
  inv_rowCount :
    forall copyOperation selected,
      props_copyOperation m = Some copyOperation ->
      op_error copyOperation = None ->
      ranges copyOperation = Some selected ->
      rowCount (state m) = GridRange_rowCount selected
}.

(** The component after a run of events; an event that cannot occur ends
    the run. *)
Fixpoint after (events : list Event) (m : Machine) : Machine :=
  match events with
  | [] => m
  | ev :: rest =>
    match dispatch ev m with
    | Some m' => after rest m'
    | None => m
    end
  end.

(** The events the browser delivers on its own: a timer firing, a promise
    settling or its cancellation reaching the awaiter, a clipboard write
    settling; as opposed to the props changing, the unmount and the
    clicks. *)
Definition delivered (ev : Event) : bool :=
  match ev with
  | TimerFired _ | FetchFulfilled _ _ | FetchRejected _
  | CancelObserved _ | ClipboardSettled _ _ => true
  | PropsChanged _ | Unmounting | BackgroundClick | CancelClick
  | CopyClick => false
  end.

(** Nothing is left for the browser to deliver but cancellations. *)
Definition quiet (m : Machine) : Prop :=
  fetches m = [] /\ timers m = [] /\ writes m = [].

(** [render]: [buttonState === BUTTON_STATES.FETCH_IN_PROGRESS], which
    disables the copy button and shows the spinner (lines 433-434). *)
Definition isFetching (s : State) : bool :=
  match buttonState s with
  | FETCH_IN_PROGRESS => true
  | _ => false
  end.

(** The button state that each [setState] of the component sets together
    with a copy state; [DONE] is set on its own (lines 220, 303, 327). *)
Definition expectedButton (c : CopyState) : option ButtonState :=
  match c with
  | IDLE | CONFIRMATION_REQUIRED => Some COPY
  | FETCH_RANGES_IN_PROGRESS | FETCH_HEADER_IN_PROGRESS =>
      Some FETCH_IN_PROGRESS
  | FETCH_ERROR => Some RETRY
  | CLICK_REQUIRED => Some CLICK_TO_COPY
  | DONE => None
  end.

(** What [startFetch] hands to [PromiseUtils.makeCancelable] for an
    operation (lines 331 and 364-366), if it gets that far. *)
Definition requested (copyOperation : option CopyOperation)
  : option Wrapped :=
  match copyOperation with
  | None => None
  | Some c =>
    match columnIndex c with
    | Some column =>
      match
        model_textForColumnHeader
          (GridUtils_getModelIndex column (movedColumns c)) (columnDepth c)
      with
      | Some copyText => Some (HeaderText copyText)
      | None => None
      end
    | None =>
      match ranges c with
      | Some selected =>
        Some (TextSnapshot
                (visibleModelRanges selected (userColumnWidths c)
                                    (movedColumns c))
                (includeHeaders c) (chooseFormatter (formatValues c)))
      | None => None
      end
    end
  end.

(** What also holds of every state the component reaches: while the
    buttons are shown the button state is the one of the copy state, and
    a pending fetch is the one of the current operation, with no text
    cached yet. *)
Record Coherent (m : Machine) : Prop := {
  coh_button :
    forall b, expectedButton (copyState (state m)) = Some b ->
              buttonState (state m) = b;
  coh_pending :
    forall p w, fetches m = [(p, w)] ->
                textData m = None /\
                requested (props_copyOperation m) = Some w
}.

(** [evaluated x v]: [x] names the outcome [v] of running a method; the
    proofs below compute [v] once and read the claim off [x]. *)
Definition evaluated {A : Type} (x value : A) : Prop := x = value.

End CopyHandler.

Arguments has : simpl never.
Arguments without : simpl never.
Arguments mem : simpl never.
Arguments drop : simpl never.
Arguments CopyOperation {X}.
Arguments Machine {X}.
Arguments Event {X}.

(** ** A test double for the collaborators

    Canned answers in the manner of a unit test's mocks: a range stands
    for its number of rows, no column is moved or hidden, and only column 0
    has a header. Numbers are printed as the en-US locale does, digits in
    groups of three. *)
Module Mock.

Fixpoint group3 (reversed : list ascii) (n : nat) : list ascii :=
  match reversed with
  | [] => []
  | d :: rest =>
    match n with
    | 3%nat => ","%char :: d :: group3 rest 1
    | _ => d :: group3 rest (S n)
    end
  end.

Definition grouped (digits : string) : string :=
  string_of_list_ascii
    (rev (group3 (rev (list_ascii_of_string digits)) 0)).

Definition enUS (n : Z) : string :=
  let digits := NilZero.string_of_uint (N.to_uint (Z.to_N (Z.abs n))) in
  if (n <? 0)%Z then "-" ++ grouped digits else grouped digits.

#[export] Instance collaborators : Collaborators := {|
  GridRange := Z;
  MoveOperation := unit;
  ModelSizeMap := unit;
  GridRange_rowCount := fun ranges => fold_right Z.add 0%Z ranges;
  GridRange_makeColumn := fun _ => 0%Z;
  GridRange_subtractRangesFromRanges := fun ranges _ => ranges;
  GridUtils_getModelIndex := fun visibleIndex _ => visibleIndex;
  GridUtils_getModelRanges := fun ranges _ => ranges;
  IrisGridUtils_getHiddenColumns := fun _ => [];
  model_textForColumnHeader :=
    fun column _ => if (column =? 0)%Z then Some "Name" else None;
  toLocaleString := enUS
|}.

(** A ranges operation over [rows] rows. *)
Definition rangesOperation (rows : Z) : CopyOperation :=
  {| movedColumns := []; op_error := None; ranges := Some [rows];
     includeHeaders := true; formatValues := None; userColumnWidths := tt;
     columnIndex := None; columnDepth := 0 |}.

(** A header operation on [column]. *)
Definition headerOperation (column : Z) : CopyOperation :=
  {| movedColumns := []; op_error := None; ranges := None;
     includeHeaders := false; formatValues := None; userColumnWidths := tt;
     columnIndex := Some column; columnDepth := 0 |}.

(** An operation the caller rejected before handing it over. *)
Definition failedOperation (message : string) : CopyOperation :=
  {| movedColumns := []; op_error := Some message; ranges := Some [];
     includeHeaders := false; formatValues := None; userColumnWidths := tt;
     columnIndex := None; columnDepth := 0 |}.

(** An object that fits both variants of the union. *)
Definition bothOperation (rows column : Z) : CopyOperation :=
  {| movedColumns := []; op_error := None; ranges := Some [rows];
     includeHeaders := true; formatValues := None; userColumnWidths := tt;
     columnIndex := Some column; columnDepth := 0 |}.

(** Mounted on five rows, the snapshot fetch pending. *)
Definition fetching : Machine := mounted (Some (rangesOperation 5)).

(** The snapshot delivered and the clipboard write refused: the text is
    cached and a click is required. *)
Definition clickRequired : Machine :=
  match dispatch (FetchFulfilled 0%nat "a,b") fetching with
  | Some m1 =>
    match dispatch (ClipboardSettled 1%nat false) m1 with
    | Some m2 => m2
    | None => m1
    end
  | None => fetching
  end.

(** The snapshot delivered and written to the clipboard: [DONE], the
    hide timer running. *)
Definition copied : Machine :=
  after [FetchFulfilled 0%nat "a,b"; ClipboardSettled 1%nat true] fetching.

(** Click required, and the copy button clicked: a write in flight. *)
Definition writing : Machine := after [CopyClick] clickRequired.

(** While that write is in flight a new operation on seven rows arrives
    and starts its fetch; then the write fails, and its error is set on
    the new operation's cycle. *)
Definition staleError : Machine :=
  after [PropsChanged (Some (rangesOperation 7));
         ClipboardSettled 2%nat false] writing.


End Mock.

(* ================================================================== *)
(** * Properties *)
(* ================================================================== *)

(** ** KeyHandler *)

(** C9: a KeyHandler constructed without an order argument has order 5000,
    and the base handler's onDown reports the event as not consumed, for
    every event and every grid. *)
Theorem KeyHandler_default_order_and_onDown :
  KeyHandler.order (KeyHandler.new None) = 5000 /\
  forall (GridKeyboardEvent Grid : Type) (self : KeyHandler.KeyHandler)
         (event : GridKeyboardEvent) (grid : Grid),
    KeyHandler.onDown self event grid = false.
Proof.
  split.
  - reflexivity.
  - intros E G self event grid. reflexivity.
Qed.

(** ** IrisGridCopyHandler *)

Section Properties.

Context {X : Collaborators}.

(** Proofs run the methods by normalising: the handle look-ups, the
    numeric tests and the collaborators stay folded, and are settled by
    rewriting or by cases. *)
Ltac normalise :=
  lazy -[has without drop mem find_handle Z.ltb Z.gtb Z.of_nat String.eqb
         Nat.eqb List.length HIDE_TIMEOUT NO_PROMPT_THRESHOLD Nat.lt Nat.le
         toLocaleString String.append In visibleModelRanges chooseFormatter
         Z.gt Z.ge Z.le Z.lt Z.compare not evaluated app
         GridRange MoveOperation ModelSizeMap GridRange_rowCount
         GridRange_makeColumn GridRange_subtractRangesFromRanges
         GridUtils_getModelIndex GridUtils_getModelRanges
         IrisGridUtils_getHiddenColumns model_textForColumnHeader].

Ltac normalise_in H :=
  lazy -[has without drop mem find_handle Z.ltb Z.gtb Z.of_nat String.eqb
         Nat.eqb List.length HIDE_TIMEOUT NO_PROMPT_THRESHOLD Nat.lt Nat.le
         toLocaleString String.append In visibleModelRanges chooseFormatter
         Z.gt Z.ge Z.le Z.lt Z.compare not evaluated app
         GridRange MoveOperation ModelSizeMap GridRange_rowCount
         GridRange_makeColumn GridRange_subtractRangesFromRanges
         GridUtils_getModelIndex GridUtils_getModelRanges
         IrisGridUtils_getHiddenColumns model_textForColumnHeader] in H.

Ltac branch :=
  match goal with
  | |- context [match ?x with _ => _ end] =>
      lazymatch x with
      | context [match _ with _ => _ end] => fail
      | _ => destruct x eqn:?
      end
  end.


(** *** Handles in the browser's lists *)

Lemma has_head {A : Type} (k : nat) (a : A) (l : list (nat * A)) :
  has k ((k, a) :: l) = true.
Proof. unfold has. cbn. now rewrite Nat.eqb_refl. Qed.

Lemma has_nil {A : Type} (k : nat) : has k (@nil (nat * A)) = false.
Proof. reflexivity. Qed.

Lemma without_head {A : Type} (k : nat) (a : A) (l : list (nat * A)) :
  without k ((k, a) :: l) = without k l.
Proof. unfold without. cbn. now rewrite Nat.eqb_refl. Qed.

Lemma without_nil {A : Type} (k : nat) : without k (@nil (nat * A)) = [].
Proof. reflexivity. Qed.

Lemma find_handle_head {A : Type} (k : nat) (a : A) (l : list (nat * A)) :
  find_handle k ((k, a) :: l) = Some a.
Proof. cbn. now rewrite Nat.eqb_refl. Qed.

Lemma find_handle_has {A : Type} (k : nat) (l : list (nat * A)) (a : A) :
  find_handle k l = Some a -> has k l = true.
Proof.
  unfold has. induction l as [|[k' a'] l IH]; cbn; [discriminate|].
  destruct (Nat.eqb k' k); [reflexivity|exact IH].
Qed.

Lemma mem_head (k : nat) (l : list nat) : mem k (k :: l) = true.
Proof. unfold mem. cbn. now rewrite Nat.eqb_refl. Qed.

Lemma mem_In (k : nat) (l : list nat) : mem k l = true <-> In k l.
Proof.
  unfold mem. rewrite existsb_exists. split.
  - intros [x [Hx Hk]]. apply Nat.eqb_eq in Hk. now subst.
  - intros H. exists k. split; [exact H|apply Nat.eqb_refl].
Qed.

Lemma drop_head (k : nat) (l : list nat) : drop k (k :: l) = drop k l.
Proof. unfold drop. cbn. now rewrite Nat.eqb_refl. Qed.

Lemma drop_nil (k : nat) : drop k [] = [].
Proof. reflexivity. Qed.

Ltac handles :=
  repeat first
    [ rewrite has_head | rewrite has_nil | rewrite without_head
    | rewrite without_nil | rewrite find_handle_head | rewrite mem_head
    | rewrite drop_head | rewrite drop_nil
    | rewrite Nat.eqb_refl ].

(** *** The invariant *)

(** The two shapes the invariant leaves for the pending fetch and the
    scheduled timer. *)
Lemma Tracked_fetch_shape (m : Machine) :
  Tracked m ->
  (fetchPromise m = None /\ fetches m = []) \/
  (exists p w, fetchPromise m = Some p /\ fetches m = [(p, w)]
               /\ (p < fresh m)%nat
               /\ copyState (state m) <> FETCH_ERROR).
Proof.
  intros [Hf _ Hff _ He]. unfold outstandingFetches in Hf.
  destruct (fetchPromise m) as [p|]; cbn in Hf.
  - right. destruct (fetches m) as [|[p' w] [|]]; try discriminate.
    injection Hf as ->. exists p, w. repeat split; auto.
    apply He. discriminate.
  - left. destruct (fetches m); [auto|discriminate].
Qed.

Lemma Tracked_timer_shape (m : Machine) :
  Tracked m ->
  (hideTimer m = None /\ timers m = []) \/
  (exists t, hideTimer m = Some t /\ timers m = [t] /\ (t < fresh m)%nat).
Proof.
  intros [_ Ht _ Htf _].
  destruct (hideTimer m) as [t|]; cbn in Ht.
  - right. exists t. auto.
  - left. auto.
Qed.

(** From [H : Tracked m] or [H : Invariant m]: [m] as a record, its
    pending fetch and its timer in one of their two shapes each. *)
Ltac shapes m H :=
  let Hf := fresh "Hf" in
  let Ht := fresh "Ht" in
  let Hrc := fresh "Hrc" in
  try (pose proof (inv_rowCount H) as Hrc);
  try (apply inv_tracked in H);
  pose proof (Tracked_fetch_shape H) as Hf;
  pose proof (Tracked_timer_shape H) as Ht;
  clear H;
  destruct m as [op st td ht fp fr fs cs ws ts tr];
  cbn in Hf, Ht;
  try (cbn [props_copyOperation state] in Hrc);
  destruct Hf as [[-> ->]|[?p [?w [-> [-> [? ?]]]]]];
  destruct Ht as [[-> ->]|[?t [-> [-> ?]]]].

Ltac establish_tracked :=
  constructor; normalise;
  [ reflexivity
  | reflexivity
  | intros ? [=]; subst; lia
  | intros ? [=]; subst; lia
  | intros ?; first [congruence | assumption] ].

Ltac establish_rowCount :=
  let HP := fresh "HP" in
  normalise; intros ? ? HP ? ?;
  first [ congruence
        | solve [eauto]
        | injection HP as <-; first [congruence | solve [eauto]] ].

Ltac establish := constructor; [establish_tracked|establish_rowCount].

Ltac handles_in E :=
  repeat first
    [ rewrite has_head in E | rewrite has_nil in E
    | rewrite without_head in E | rewrite without_nil in E
    | rewrite find_handle_head in E | rewrite mem_head in E
    | rewrite drop_head in E | rewrite drop_nil in E
    | rewrite Nat.eqb_refl in E ].

Ltac reduce := normalise; repeat (progress handles; normalise).

(** Name every outcome in the goal, then compute each one once, by
    cases on what the computation is stuck on. *)
Ltac outcomes :=
  repeat match goal with
         | |- context [calls ?c ?m] =>
             let x := fresh "made" in
             let E := fresh "E" in
             remember (calls c m) as x eqn:E;
             change (evaluated x (calls c m)) in E
         | |- context [exec ?c ?m] =>
             let x := fresh "after" in
             let E := fresh "E" in
             remember (exec c m) as x eqn:E;
             change (evaluated x (exec c m)) in E
         end.

Ltac compute_outcomes :=
  repeat match goal with
         | E : evaluated _ _ |- _ => progress (normalise_in E)
         | E : evaluated _ _ |- _ => progress (handles_in E)
         | E : evaluated _ ?v |- _ =>
             match v with
             | context [match ?x with _ => _ end] =>
                 lazymatch x with
                 | context [match _ with _ => _ end] => fail
                 | _ => destruct x eqn:?
                 end
             end
         end.

Ltac evaluate :=
  outcomes; compute_outcomes; unfold evaluated in *; subst; normalise.

Ltac run := reduce; repeat (branch; reduce).

Ltac settle := run; establish.

Lemma Tracked_constructed (copyOperation : option CopyOperation) :
  Tracked (constructed copyOperation).
Proof. establish_tracked. Qed.

Lemma Invariant_startFetch (m : Machine) :
  Invariant m -> Invariant (exec startFetch m).
Proof. intros H. shapes m H; settle. Qed.

(** [startCopy] sets the row count itself. *)
Lemma Invariant_startCopy (m : Machine) :
  Tracked m -> Invariant (exec startCopy m).
Proof. intros H. shapes m H; settle. Qed.

Lemma mem_singleton (k k' : nat) : mem k [k'] = true -> k = k'.
Proof. intros H. apply mem_In in H. destruct H as [H|[]]. now subst. Qed.

Lemma find_handle_singleton {A : Type} (k k' : nat) (a a' : A) :
  find_handle k [(k', a')] = Some a -> k = k' /\ a = a'.
Proof.
  cbn. destruct (Nat.eqb k' k) eqn:E; [|discriminate].
  apply Nat.eqb_eq in E. intros [=]. now subst.
Qed.

(** The lifecycle methods and the click handler, by the method they end
    in. *)
Lemma componentDidMount_exec (m : Machine) :
  exec componentDidMount m =
  match props_copyOperation m with
  | Some _ => exec startCopy m
  | None => m
  end.
Proof.
  unfold exec, componentDidMount, bind, gets.
  destruct (props_copyOperation m); reflexivity.
Qed.

Lemma componentDidUpdate_exec (next : option CopyOperation) (m : Machine) :
  exec (componentDidUpdate next) m =
  if sameReference (props_copyOperation m) next
  then set_props_copyOperation next m
  else exec startCopy (set_props_copyOperation next m).
Proof.
  unfold exec, componentDidUpdate, bind, gets, modify.
  destruct (sameReference (props_copyOperation m) next); reflexivity.
Qed.

Lemma handleCopyClick_exec (m : Machine) :
  exec handleCopyClick m =
  match textData m with
  | Some text => exec (copyText text InHandleCopyClick) m
  | None => exec startFetch m
  end.
Proof.
  unfold exec, handleCopyClick, bind, gets.
  destruct (textData m); reflexivity.
Qed.

Lemma Tracked_set_props (next : option CopyOperation) (m : Machine) :
  Tracked m -> Tracked (set_props_copyOperation next m).
Proof. intros [? ? ? ? ?]. constructor; assumption. Qed.

Lemma Invariant_mounted (copyOperation : option CopyOperation) :
  Invariant (mounted copyOperation).
Proof.
  unfold mounted. rewrite componentDidMount_exec.
  destruct copyOperation as [c|]; cbn [constructed props_copyOperation].
  - apply Invariant_startCopy, Tracked_constructed.
  - constructor; [apply Tracked_constructed|discriminate].
Qed.

(** Every turn of the event loop keeps the invariant. *)
Lemma Invariant_dispatch (m m' : Machine) (ev : Event) :
  Invariant m -> dispatch ev m = Some m' -> Invariant m'.
Proof.
  intros H D. destruct ev; cbn [dispatch] in D.
  - injection D as <-. rewrite componentDidUpdate_exec.
    destruct (sameReference _ _) eqn:E.
    + destruct (props_copyOperation m), next; try discriminate.
      constructor; [apply Tracked_set_props, H|discriminate].
    + apply Invariant_startCopy, Tracked_set_props, H.
  - injection D as <-. shapes m H; settle.
  - injection D as <-. shapes m H; settle.
  - injection D as <-. shapes m H; settle.
  - injection D as <-. rewrite handleCopyClick_exec.
    destruct (textData m) eqn:E; [|apply Invariant_startFetch, H].
    shapes m H; settle.
  - destruct (mem t (timers m)) eqn:E; [|discriminate].
    injection D as <-. shapes m H; cbn in E; try discriminate;
      apply mem_singleton in E; subst; settle.
  - destruct (find_handle p (fetches m)) as [w|] eqn:E; [|discriminate].
    assert (D' : exec (startFetch_settled (Fulfilled text))
                   (set_fetches (without p (fetches m)) m) = m').
    { destruct w; [destruct (String.eqb copyText0 text)|];
        congruence. }
    clear D. subst m'.
    shapes m H; cbn in E; try discriminate;
      apply find_handle_singleton in E; destruct E; subst; settle.
  - destruct (find_handle p (fetches m)) as [[]|] eqn:E; try discriminate.
    injection D as <-.
    shapes m H; cbn in E; try discriminate;
      apply find_handle_singleton in E; destruct E; subst; settle.
  - destruct (mem p (cancelled m)); [|discriminate].
    injection D as <-. shapes m H; settle.
  - destruct (find_handle w (writes m)) as [[text []]|];
      try discriminate; injection D as <-;
      shapes m H; destruct copied; settle.
Qed.

(** The invariant holds of every reachable state. *)
Lemma reachable_Invariant (m : Machine) : reachable m -> Invariant m.
Proof.
  induction 1 as [copyOperation|m m' ev _ IH D].
  - apply Invariant_mounted.
  - exact (Invariant_dispatch ev IH D).
Qed.

(** *** The calls of a method are what it adds to the trace *)

Ltac by_cases m :=
  destruct m as [op st td ht fp fr fs cs ws ts tr];
  try (destruct op as [[mc oe rs ih fv ucw ci cd]|]);
  cbn [props_copyOperation state textData hideTimer fetchPromise fresh
       fetches cancelled writes timers trace movedColumns op_error ranges
       includeHeaders formatValues userColumnWidths columnIndex columnDepth]
    in *;
  subst.

Lemma startFetch_trace (m : Machine) :
  trace (exec startFetch m) = (calls startFetch m ++ trace m)%list.
Proof. by_cases m; run; reflexivity. Qed.

Lemma startCopy_trace (m : Machine) :
  trace (exec startCopy m) = (calls startCopy m ++ trace m)%list.
Proof. by_cases m; evaluate; reflexivity. Qed.

Lemma handleCopyClick_trace (m : Machine) :
  trace (exec handleCopyClick m) = (calls handleCopyClick m ++ trace m)%list.
Proof.
  unfold calls. rewrite !handleCopyClick_exec.
  replace (textData (set_trace [] m)) with (textData m) by reflexivity.
  destruct (textData m); [reflexivity|apply startFetch_trace].
Qed.

(** *** Claims about [startCopy] *)

(** C7: for every non-null operation that carries a preset error,
    [startCopy] goes straight to [DONE] with that error as the status
    message, starts the auto-hide timer (one [setTimeout] of 3000 ms, kept
    in [hideTimer]) and issues no fetch. *)
Theorem startCopy_preset_error
        (m : Machine) (copyOperation : CopyOperation) (message : string) :
  props_copyOperation m = Some copyOperation ->
  op_error copyOperation = Some message ->
  let m' := exec startCopy m in
  copyState (state m') = DONE /\
  isShown (state m') = true /\
  error (state m') = Some message /\
  statusMessageText (state m') = message /\
  hideTimer m' = Some (fresh m) /\
  In (fresh m) (timers m') /\
  filter isSetTimeout (calls startCopy m) = [SetTimeout (fresh m) 3000] /\
  noneOf isFetch (calls startCopy m) /\
  fetchPromise m' = None.
Proof.
  intros Hop Herr m'. subst m'. unfold noneOf.
  by_cases m; [|discriminate]. injection Hop as <-.
  cbn [op_error] in Herr. subst oe.
  evaluate; repeat split; auto with datatypes.
Qed.

(** C1: for every operation with ranges and no preset error,
    [startCopy] ends in [CONFIRMATION_REQUIRED] having issued no fetch
    exactly when the row count of the ranges exceeds 10000; a ranges
    operation (no [columnIndex]) of at most 10000 rows goes on to the
    fetch: [FETCH_RANGES_IN_PROGRESS], with the one snapshot fetch held in
    [fetchPromise]. *)
Theorem startCopy_prompt_threshold
        (m : Machine) (copyOperation : CopyOperation)
        (selected : list GridRange) :
  props_copyOperation m = Some copyOperation ->
  op_error copyOperation = None ->
  ranges copyOperation = Some selected ->
  let m' := exec startCopy m in
  ((copyState (state m') = CONFIRMATION_REQUIRED /\
    noneOf isFetch (calls startCopy m))
   <-> GridRange_rowCount selected > 10000) /\
  (columnIndex copyOperation = None ->
   GridRange_rowCount selected <= 10000 ->
   copyState (state m') = FETCH_RANGES_IN_PROGRESS /\
   buttonState (state m') = FETCH_IN_PROGRESS /\
   fetchPromise m' = Some (fresh m) /\
   filter isFetch (calls startCopy m) =
     [MakeCancelable (fresh m)
        (TextSnapshot
           (visibleModelRanges selected (userColumnWidths copyOperation)
                               (movedColumns copyOperation))
           (includeHeaders copyOperation)
           (chooseFormatter (formatValues copyOperation)))]).
Proof.
  intros Hop Herr Hranges m'. subst m'. unfold noneOf.
  by_cases m; [|discriminate]. injection Hop as <-.
  cbn [op_error ranges columnIndex userColumnWidths movedColumns
       includeHeaders formatValues] in *.
  subst oe rs.
  evaluate;
    match goal with
    | H : (_ >? _) = _ |- _ =>
        unfold NO_PROMPT_THRESHOLD in H; rewrite Z.gtb_ltb in H;
        first [apply Z.ltb_lt in H | apply Z.ltb_ge in H]
    end;
    (split; [split; [intros [? ?]; first [lia | discriminate]
                    |intros ?; first [lia | auto]]
            |intros ? ?; first [lia | discriminate | auto]]).
Qed.

(** *** Claims about the fetch stage *)

(** C6: for every operation with a [columnIndex] for whose header the
    model returns undefined, [startFetch] sets the error
    "Invalid column header selected." and the state [DONE], makes no
    promise and attempts no clipboard write. *)
Theorem startFetch_invalid_header
        (m : Machine) (copyOperation : CopyOperation) (column : Z) :
  props_copyOperation m = Some copyOperation ->
  columnIndex copyOperation = Some column ->
  model_textForColumnHeader
    (GridUtils_getModelIndex column (movedColumns copyOperation))
    (columnDepth copyOperation) = None ->
  let m' := exec startFetch m in
  error (state m') = Some "Invalid column header selected." /\
  copyState (state m') = DONE /\
  statusMessageText (state m') = "Invalid column header selected." /\
  noneOf isClipboardWrite (calls startFetch m) /\
  noneOf isFetch (calls startFetch m) /\
  writes m' = writes m /\
  fetchPromise m' = None /\
  textData m' = textData m.
Proof.
  intros Hop Hcol Hmodel m'. subst m'. unfold noneOf.
  by_cases m; [|discriminate]. injection Hop as <-.
  cbn [columnIndex movedColumns columnDepth] in *. subst ci.
  outcomes; compute_outcomes; try congruence.
  all: unfold evaluated in *; subst; normalise; repeat split.
Qed.

(** C10: the two discriminators read different fields, [ranges] and
    [columnIndex]; on an operation that has both, [startCopy] takes the
    ranges path (it stores the row count and prompts above the threshold)
    while [startFetch] takes the header path: it fetches the header, or
    reports the invalid header, and what [ranges] and the other ranges
    fields hold makes no difference to it. *)
Theorem discriminators_read_different_fields
        (m : Machine) (copyOperation : CopyOperation)
        (selected : list GridRange) (column : Z) :
  props_copyOperation m = Some copyOperation ->
  op_error copyOperation = None ->
  ranges copyOperation = Some selected ->
  columnIndex copyOperation = Some column ->
  (forall o, isCopyRangesOperation o = true <-> ranges o <> None) /\
  (forall o, isCopyHeaderOperation o = true <-> columnIndex o <> None) /\
  isCopyRangesOperation copyOperation = true /\
  isCopyHeaderOperation copyOperation = true /\
  rowCount (state (exec startCopy m)) = GridRange_rowCount selected /\
  (GridRange_rowCount selected > 10000 ->
   copyState (state (exec startCopy m)) = CONFIRMATION_REQUIRED /\
   noneOf isFetch (calls startCopy m)) /\
  match
    model_textForColumnHeader
      (GridUtils_getModelIndex column (movedColumns copyOperation))
      (columnDepth copyOperation)
  with
  | Some text =>
      copyState (state (exec startFetch m)) = FETCH_HEADER_IN_PROGRESS /\
      filter isFetch (calls startFetch m) =
        [MakeCancelable (fresh m) (HeaderText text)]
  | None =>
      copyState (state (exec startFetch m)) = DONE /\
      error (state (exec startFetch m)) =
        Some "Invalid column header selected." /\
      filter isFetch (calls startFetch m) = []
  end /\
  forall other : CopyOperation,
    columnIndex other = Some column ->
    columnDepth other = columnDepth copyOperation ->
    movedColumns other = movedColumns copyOperation ->
    let m_other := set_props_copyOperation (Some other) m in
    state (exec startFetch m_other) = state (exec startFetch m) /\
    calls startFetch m_other = calls startFetch m /\
    fetches (exec startFetch m_other) = fetches (exec startFetch m).
Proof.
  intros Hop Herr Hranges Hcol. unfold noneOf.
  split; [|split].
  { intros o. unfold isCopyRangesOperation.
    destruct (ranges o); split; congruence. }
  { intros o. unfold isCopyHeaderOperation.
    destruct (columnIndex o); split; congruence. }
  unfold isCopyRangesOperation, isCopyHeaderOperation.
  rewrite Hranges, Hcol.
  do 2 (split; [reflexivity|]).
  by_cases m; [|discriminate]. injection Hop as <-.
  cbn [op_error ranges columnIndex movedColumns columnDepth] in *.
  subst oe rs ci.
  repeat split.
  - evaluate; reflexivity.
  - revert H. evaluate;
      match goal with
      | H : (_ >? _) = _ |- _ =>
          unfold NO_PROMPT_THRESHOLD in H; rewrite Z.gtb_ltb in H;
          first [apply Z.ltb_lt in H | apply Z.ltb_ge in H]
      end; intros; first [lia | reflexivity].
  - revert H. evaluate;
      match goal with
      | H : (_ >? _) = _ |- _ =>
          unfold NO_PROMPT_THRESHOLD in H; rewrite Z.gtb_ltb in H;
          first [apply Z.ltb_lt in H | apply Z.ltb_ge in H]
      end; intros; first [lia | reflexivity].
  - destruct (model_textForColumnHeader _ _) eqn:Hm.
    + outcomes; compute_outcomes; try congruence.
      all: unfold evaluated in *; subst; normalise.
      all: split; congruence.
    + outcomes; compute_outcomes; try congruence.
      all: unfold evaluated in *; subst; normalise; repeat split.
  - destruct other as [mc' oe' rs' ih' fv' ucw' ci' cd'].
    cbn [columnIndex columnDepth movedColumns] in *. subst.
    evaluate; reflexivity.
  - destruct other as [mc' oe' rs' ih' fv' ucw' ci' cd'].
    cbn [columnIndex columnDepth movedColumns] in *. subst.
    evaluate; reflexivity.
  - destruct other as [mc' oe' rs' ih' fv' ucw' ci' cd'].
    cbn [columnIndex columnDepth movedColumns] in *. subst.
    evaluate; reflexivity.
Qed.

(** *** Claims about the clipboard write *)

Ltac settled :=
  eexists; split; [normalise; handles; normalise; reflexivity|].

(** C3: a copy click with cached text writes that text to the clipboard
    and fetches nothing; when the write fails the handler sets the error
    "Unable to copy. Verify your browser permissions." and leaves
    [copyState] and [buttonState] as they were; when it succeeds the
    handler goes to [DONE] and starts the auto-hide timer. *)
Theorem handleCopyClick_cached (m : Machine) (text : string) :
  textData m = Some text ->
  let w := fresh m in
  let m1 := exec handleCopyClick m in
  calls handleCopyClick m = [CopyToClipboard w text] /\
  state m1 = state m /\
  (exists m2,
     dispatch (ClipboardSettled w false) m1 = Some m2 /\
     error (state m2) =
       Some "Unable to copy. Verify your browser permissions." /\
     statusMessageText (state m2) =
       "Unable to copy. Verify your browser permissions." /\
     copyState (state m2) = copyState (state m) /\
     buttonState (state m2) = buttonState (state m) /\
     textData m2 = Some text /\
     trace m2 = trace m1) /\
  (exists m2,
     dispatch (ClipboardSettled w true) m1 = Some m2 /\
     copyState (state m2) = DONE /\
     hideTimer m2 = Some (fresh m1) /\
     In (fresh m1) (timers m2) /\
     filter isSetTimeout (trace m2) =
       SetTimeout (fresh m1) 3000 :: filter isSetTimeout (trace m1)).
Proof.
  intros Htext w m1. subst w m1.
  destruct m as [op st td ht fp fr fs cs ws ts tr].
  cbn [textData] in Htext. subst td.
  split; [reflexivity|]. split; [reflexivity|]. split.
  - settled. normalise. repeat split.
  - destruct ht as [t|]; settled; normalise; repeat split;
      auto with datatypes.
Qed.

(** Whenever the write of a copy click fails, whatever happened since the
    click, only the error changes. *)
Lemma manual_write_failed_frame
      (m : Machine) (w : WriteId) (text : string) :
  find_handle w (writes m) = Some (text, InHandleCopyClick) ->
  exists m',
    dispatch (ClipboardSettled w false) m = Some m' /\
    state m' =
      with_error (Some "Unable to copy. Verify your browser permissions.")
                 (state m) /\
    trace m' = trace m /\ textData m' = textData m.
Proof.
  intros Hw. eexists. split.
  - cbn [dispatch]. rewrite Hw. reflexivity.
  - repeat split.
Qed.


(** *** Claims about a fetch that does not deliver *)

(** C5, amended: for a reachable state with a pending fetch, the awaiter
    resumed with a rejection ends in [FETCH_ERROR] with button [RETRY]
    exactly when what was thrown is not a [CanceledPromiseError]; it never
    touches the error, and the message rendered then is the error of the
    state when one is set, and "Unable to copy data." otherwise. The
    model's rejection of a snapshot is such a resumption. A cancel click
    followed by the awaiter seeing the cancellation leaves [copyState],
    [buttonState], the error and the message rendered as they were, and
    [copyState] is not [FETCH_ERROR]. *)
Theorem fetch_rejected_or_cancelled
        (m : Machine) (p : PromiseId) (wrapped : Wrapped) (e : Thrown) :
  reachable m ->
  find_handle p (fetches m) = Some wrapped ->
  let resumed :=
    exec (startFetch_settled (Rejected e))
         (set_fetches (without p (fetches m)) m) in
  ((copyState (state resumed) = FETCH_ERROR /\
    buttonState (state resumed) = RETRY)
   <-> e <> CanceledPromiseError) /\
  error (state resumed) = error (state m) /\
  statusMessageText (state resumed) =
    match error (state m), e with
    | Some shown, _ => shown
    | None, OtherError => "Unable to copy data."
    | None, CanceledPromiseError => statusMessageText (state m)
    end /\
  match wrapped with
  | TextSnapshot _ _ _ =>
      dispatch (FetchRejected p) m =
        Some (exec (startFetch_settled (Rejected OtherError))
                   (set_fetches (without p (fetches m)) m))
  | HeaderText _ => dispatch (FetchRejected p) m = None
  end /\
  exists m1 m2,
    dispatch CancelClick m = Some m1 /\
    dispatch (CancelObserved p) m1 = Some m2 /\
    copyState (state m2) = copyState (state m) /\
    copyState (state m2) <> FETCH_ERROR /\
    buttonState (state m2) = buttonState (state m) /\
    error (state m2) = error (state m) /\
    statusMessageText (state m2) = statusMessageText (state m) /\
    filter isFetch (trace m2) = filter isFetch (trace m).
Proof.
  intros Hreach Hp resumed. subst resumed.
  apply reachable_Invariant in Hreach.
  shapes m Hreach; cbn [fetches] in Hp; try discriminate;
    apply find_handle_singleton in Hp; destruct Hp; subst;
    destruct st as [err c b shown n]; cbn [state copyState] in *.
  all: split;
    [destruct e; normalise; split;
       [intros [? _]; congruence | congruence
       | discriminate | intros _; repeat split]|].
  all: split; [destruct e; reflexivity|].
  all: split; [destruct e, err; reflexivity|].
  all: split;
    [match goal with W : Wrapped |- _ => destruct W end;
     cbn [dispatch fetches]; handles; reflexivity|].
  all: eexists; eexists; split; [reflexivity|];
    split; [normalise; handles; normalise; reflexivity|];
    normalise; repeat split; assumption.
Qed.

(** *** At most one fetch and one timer *)

(** C8: in every reachable state at most one fetch is pending and at
    most one timer is scheduled. The first call of [startFetch] cancels
    the pending fetch and the first call of [startHideTimer] clears the
    scheduled timer; [startCopy] on a new operation cancels the pending
    fetch and the scheduled timer and clears the cached text, and in its
    calls the cancellations come before any new fetch or timer. *)
Ltac absent :=
  let HH := fresh "HH" in
  cbn [In map fst]; intros HH;
  repeat (destruct HH as [HH|HH]); try contradiction; subst; lia.

Theorem one_fetch_one_timer (m : Machine) (next : CopyOperation) :
  reachable m ->
  (List.length (outstandingFetches m) <= 1)%nat /\
  (List.length (timers m) <= 1)%nat /\
  (forall p, In p (outstandingFetches m) ->
     (exists later, calls startFetch m = (later ++ [Cancel p])%list) /\
     ~ In p (outstandingFetches (exec startFetch m))) /\
  (forall t, In t (timers m) ->
     calls startHideTimer m
       = [SetTimeout (fresh m) 3000; ClearTimeout t] /\
     ~ In t (timers (exec startHideTimer m))) /\
  let m' := exec (componentDidUpdate (Some next)) m in
  (forall p, In p (outstandingFetches m) ->
     ~ In p (outstandingFetches m') /\ In p (cancelled m')) /\
  (forall t, In t (timers m) -> ~ In t (timers m')) /\
  textData m' = None /\
  (List.length (outstandingFetches m') <= 1)%nat /\
  (List.length (timers m') <= 1)%nat /\
  exists later,
    calls (componentDidUpdate (Some next)) m
      = (later ++ calls stopCopy m)%list /\
    (forall p, In p (outstandingFetches m) ->
       In (Cancel p) (calls stopCopy m)) /\
    (forall t, In t (timers m) -> In (ClearTimeout t) (calls stopCopy m)) /\
    noneOf isFetch (calls stopCopy m) /\
    noneOf isSetTimeout (calls stopCopy m).
Proof.
  intros Hreach. apply reachable_Invariant in Hreach.
  assert (Hnext : Invariant (exec (componentDidUpdate (Some next)) m)).
  { apply (Invariant_dispatch (PropsChanged (Some next)) Hreach).
    reflexivity. }
  pose proof (inv_fetch (inv_tracked Hnext)) as Hf'.
  pose proof (inv_timer (inv_tracked Hnext)) as Ht'.
  assert (Hone : forall h : option nat, (List.length (held h) <= 1)%nat).
  { intros [k|]; cbn; lia. }
  split; [rewrite (inv_fetch (inv_tracked Hreach)); apply Hone|].
  split; [rewrite (inv_timer (inv_tracked Hreach)); apply Hone|].
  split; [|split; [|split; [|split; [|split; [|split; [|split]]]]]].
  - intros p Hp. clear Hnext Hf' Ht'. unfold outstandingFetches.
    shapes m Hreach; cbn in Hp;
      first [destruct Hp as [<-|[]] | destruct Hp];
      evaluate;
      (split;
       [match goal with
        | |- exists later, ?A = _ => exists (removelast A); reflexivity
        end
       |absent]).
  - intros t Ht. clear Hnext Hf' Ht'.
    shapes m Hreach; cbn in Ht;
      first [destruct Ht as [<-|[]] | destruct Ht];
      evaluate; (split; [reflexivity|absent]).
  - intros p Hp. clear Hnext Hf' Ht'. unfold outstandingFetches.
    destruct next as [mc oe rs ih fv ucw ci cd].
    shapes m Hreach; cbn in Hp;
      first [destruct Hp as [<-|[]] | destruct Hp];
      evaluate; (split; [absent|auto with datatypes]).
  - intros t Ht. clear Hnext Hf' Ht'.
    destruct next as [mc oe rs ih fv ucw ci cd].
    shapes m Hreach; cbn in Ht;
      first [destruct Ht as [<-|[]] | destruct Ht];
      evaluate; absent.
  - clear Hnext Hf' Ht'.
    destruct next as [mc oe rs ih fv ucw ci cd].
    shapes m Hreach; evaluate; reflexivity.
  - rewrite Hf'. apply Hone.
  - rewrite Ht'. apply Hone.
  - clear Hnext Hf' Ht'. unfold noneOf, outstandingFetches.
    destruct next as [mc oe rs ih fv ucw ci cd].
    shapes m Hreach; evaluate;
      match goal with
      | |- exists later, ?A = (later ++ ?B)%list /\ _ =>
          exists (firstn (List.length A - List.length B) A)
      end;
      (split; [reflexivity|]); repeat split;
      cbn [In map fst]; intros ? HH;
      first [destruct HH as [<-|[]] | destruct HH];
      auto with datatypes.
Qed.

(** *** The auto-hide timer *)

(** C4, where the code departs from it: an operation on a column whose
    header the model does not have enters [DONE] with the bar shown, and
    no timer is set: [hideTimer] stays empty, nothing is scheduled, and no
    [TimerFired] can follow. The two other ways into [DONE], the preset
    error ([startCopy_preset_error]) and [showCopyDone]
    ([handleCopyClick_cached]), do set the timer. *)
Theorem invalid_header_DONE_without_timer
        (m : Machine) (copyOperation : CopyOperation) (column : Z) :
  reachable m ->
  op_error copyOperation = None ->
  ranges copyOperation = None ->
  columnIndex copyOperation = Some column ->
  model_textForColumnHeader
    (GridUtils_getModelIndex column (movedColumns copyOperation))
    (columnDepth copyOperation) = None ->
  let m' := exec (componentDidUpdate (Some copyOperation)) m in
  copyState (state m') = DONE /\
  isShown (state m') = true /\
  hideTimer m' = None /\
  timers m' = [] /\
  noneOf isSetTimeout (calls (componentDidUpdate (Some copyOperation)) m) /\
  forall t, dispatch (TimerFired t) m' = None.
Proof.
  intros Hreach Herr Hranges Hcol Hmodel m'. subst m'. unfold noneOf.
  apply reachable_Invariant in Hreach.
  destruct copyOperation as [mc oe rs ih fv ucw ci cd].
  cbn [op_error ranges columnIndex movedColumns columnDepth] in *.
  subst oe rs ci.
  shapes m Hreach; outcomes; compute_outcomes; try congruence.
  all: unfold evaluated in *; subst; normalise; repeat split.
Qed.

(** ** Beyond the claims *)

(** *** Button and pending fetch follow the copy state *)

Ltac establish_button :=
  let Eb := fresh "Eb" in
  normalise; intros ? Eb;
  first [ discriminate Eb
        | injection Eb as <-; reflexivity
        | solve [eauto] ].

Ltac establish_pending :=
  let E := fresh "E" in
  normalise; intros ? ? E;
  first [ discriminate E
        | injection E as <- <-; split;
          [ reflexivity
          | repeat match goal with
                   | H : model_textForColumnHeader _ _ = _ |- _ =>
                       rewrite H; clear H
                   end; reflexivity ]
        | match goal with
          | H : forall p w, _ = [(p, w)] -> _ /\ _ |- _ =>
              let H1 := fresh "H" in
              let H2 := fresh "H" in
              destruct (H _ _ E) as [H1 H2];
              normalise_in H1; normalise_in H2;
              first [discriminate | split; assumption]
          end ].

Ltac coherent := constructor; [establish_button|establish_pending].

(** From [H : Coherent m], before [m] is taken apart. *)
Ltac coherence H :=
  let Hb := fresh "Hb" in
  let Hp := fresh "Hp" in
  pose proof (coh_button H) as Hb;
  pose proof (coh_pending H) as Hp;
  clear H.

(** Compute the outcome of [c] before the outcomes that start from it. *)
Ltac outcome_first c :=
  match goal with
  | |- context [exec c ?m] =>
      let x := fresh "after" in
      let E := fresh "E" in
      remember (exec c m) as x eqn:E;
      change (evaluated x (exec c m)) in E
  end;
  compute_outcomes; unfold evaluated in *; subst.

Ltac operation op :=
  try (destruct op as [[mc oe rs ih fv ucw ci cd]|]).

Lemma Coherent_constructed (copyOperation : option CopyOperation) :
  Coherent (constructed copyOperation).
Proof. coherent. Qed.

Lemma Coherent_startFetch (m : Machine) :
  Tracked m ->
  (forall b, expectedButton (copyState (state m)) = Some b ->
             buttonState (state m) = b) ->
  textData m = None ->
  Coherent (exec startFetch m).
Proof.
  intros H Hb Htd. shapes m H. all: cbn [state textData] in *; subst td.
  all: destruct st as [err c b shown n]; operation op.
  all: evaluate; coherent.
Qed.

Lemma Coherent_startCopy (m : Machine) :
  Tracked m ->
  (forall b, expectedButton (copyState (state m)) = Some b ->
             buttonState (state m) = b) ->
  Coherent (exec startCopy m).
Proof.
  intros H Hb. shapes m H. all: cbn [state] in *.
  all: destruct st as [err c b shown n]; operation op.
  all: evaluate; coherent.
Qed.

Lemma Coherent_mounted (copyOperation : option CopyOperation) :
  Coherent (mounted copyOperation).
Proof.
  unfold mounted. rewrite componentDidMount_exec.
  destruct copyOperation as [c|]; cbn [constructed props_copyOperation].
  - apply Coherent_startCopy;
      [apply Tracked_constructed|apply Coherent_constructed].
  - apply Coherent_constructed.
Qed.

(** Every turn of the event loop keeps button and pending fetch in step. *)
Lemma Coherent_dispatch (m m' : Machine) (ev : Event) :
  Invariant m -> Coherent m -> dispatch ev m = Some m' -> Coherent m'.
Proof.
  intros H C D. destruct ev; cbn [dispatch] in D.
  - injection D as <-. rewrite componentDidUpdate_exec.
    destruct (sameReference _ _) eqn:E.
    + destruct (props_copyOperation m) eqn:Ep, next; try discriminate.
      constructor; [exact (coh_button C)|].
      intros p w Hf. destruct (coh_pending C Hf) as [_ Hr].
      rewrite Ep in Hr. discriminate.
    + apply Coherent_startCopy;
        [apply Tracked_set_props, H|exact (coh_button C)].
  - injection D as <-. coherence C.
    shapes m H; destruct st as [err c b shown n]; evaluate; coherent.
  - injection D as <-. coherence C.
    shapes m H; destruct st as [err c b shown n]; evaluate; coherent.
  - injection D as <-. coherence C.
    shapes m H; destruct st as [err c b shown n]; evaluate; coherent.
  - injection D as <-. rewrite handleCopyClick_exec.
    destruct (textData m) eqn:E.
    + coherence C.
      shapes m H; destruct st as [err c b shown n];
        cbn [textData] in E; subst; evaluate; coherent.
    + apply Coherent_startFetch;
        [apply H|exact (coh_button C)|exact E].
  - destruct (mem t (timers m)) eqn:E; [|discriminate].
    injection D as <-. coherence C.
    shapes m H; cbn in E; try discriminate;
      apply mem_singleton in E; subst;
      destruct st as [err c b shown n]; evaluate; coherent.
  - destruct (find_handle p (fetches m)) as [w|] eqn:E; [|discriminate].
    assert (D' : exec (startFetch_settled (Fulfilled text))
                   (set_fetches (without p (fetches m)) m) = m').
    { destruct w; [destruct (String.eqb copyText0 text)|];
        congruence. }
    clear D. subst m'. coherence C.
    shapes m H; cbn in E; try discriminate;
      apply find_handle_singleton in E; destruct E; subst;
      destruct st as [err c b shown n]; evaluate; coherent.
  - destruct (find_handle p (fetches m)) as [[]|] eqn:E; try discriminate.
    injection D as <-. coherence C.
    shapes m H; cbn in E; try discriminate;
      apply find_handle_singleton in E; destruct E; subst;
      destruct st as [err c b shown n]; evaluate; coherent.
  - destruct (mem p (cancelled m)); [|discriminate].
    injection D as <-. coherence C.
    shapes m H; destruct st as [err c b shown n]; evaluate; coherent.
  - destruct (find_handle w (writes m)) as [[text []]|];
      try discriminate; injection D as <-; coherence C;
      shapes m H; destruct copied; destruct st as [err c b shown n];
      evaluate; coherent.
Qed.

Lemma reachable_Coherent (m : Machine) : reachable m -> Coherent m.
Proof.
  induction 1 as [copyOperation|m m' ev R IH D].
  - apply Coherent_mounted.
  - exact (Coherent_dispatch ev (reachable_Invariant R) IH D).
Qed.

Lemma reachable_after (events : list Event) (m : Machine) :
  reachable m -> reachable (after events m).
Proof.
  revert m. induction events as [|ev rest IH]; intros m R; cbn [after].
  - exact R.
  - destruct (dispatch ev m) as [m'|] eqn:D; [|exact R].
    apply IH. exact (reachable_dispatch ev R D).
Qed.

(** X1: in every reachable state whose operation has ranges and no
    preset error, the row count in the state is that of those ranges. *)
Theorem rowCount_of_current_ranges
        (m : Machine) (copyOperation : CopyOperation)
        (selected : list GridRange) :
  reachable m ->
  props_copyOperation m = Some copyOperation ->
  op_error copyOperation = None ->
  ranges copyOperation = Some selected ->
  rowCount (state m) = GridRange_rowCount selected.
Proof.
  intros R Hop Herr Hranges.
  exact (inv_rowCount (reachable_Invariant R) Hop Herr Hranges).
Qed.

(** X2: in every reachable state, while the buttons are shown (any copy
    state but [DONE]) the label of the copy button is the one of the copy
    state, and the button is disabled as fetching exactly in the two
    fetch states; in [DONE] the buttons are hidden. *)
Theorem button_label_follows_copy_state (m : Machine) :
  reachable m ->
  match copyState (state m) with
  | DONE => isButtonContainerVisible (state m) = false
  | IDLE | CONFIRMATION_REQUIRED =>
      getCopyButtonText (buttonState (state m)) = "Copy" /\
      isFetching (state m) = false
  | FETCH_RANGES_IN_PROGRESS | FETCH_HEADER_IN_PROGRESS =>
      getCopyButtonText (buttonState (state m)) = "Fetching" /\
      isFetching (state m) = true
  | FETCH_ERROR =>
      getCopyButtonText (buttonState (state m)) = "Retry" /\
      isFetching (state m) = false
  | CLICK_REQUIRED =>
      getCopyButtonText (buttonState (state m)) = "Click to Copy" /\
      isFetching (state m) = false
  end.
Proof.
  intros R. pose proof (coh_button (reachable_Coherent R)) as Hb.
  unfold isFetching, isButtonContainerVisible.
  destruct (copyState (state m)) eqn:E; cbn [expectedButton] in Hb;
    try rewrite (Hb _ eq_refl); repeat split.
Qed.

(** X3: [stopCopy] is idempotent: run again at once it makes no call and
    changes nothing. *)
Theorem stopCopy_idempotent (m : Machine) :
  exec stopCopy (exec stopCopy m) = exec stopCopy m /\
  calls stopCopy (exec stopCopy m) = [].
Proof.
  destruct m as [op st td ht fp fr fs cs ws ts tr].
  destruct fp as [p|], ht as [t|]; run; split; reflexivity.
Qed.

Lemma quiet_delivered (m m' : Machine) (ev : Event) :
  quiet m -> delivered ev = true -> dispatch ev m = Some m' ->
  quiet m' /\ state m' = state m /\ trace m' = trace m /\
  textData m' = textData m.
Proof.
  destruct m as [op st td ht fp fr fs cs ws ts tr].
  unfold quiet. cbn [fetches timers writes].
  intros (-> & -> & ->) Hev D.
  destruct ev; try discriminate Hev; cbn [dispatch] in D;
    cbn [timers fetches writes cancelled] in D; try discriminate D.
  destruct (mem p cs); [|discriminate D].
  injection D as <-. repeat split.
Qed.

Lemma quiet_after (later : list Event) (m : Machine) :
  quiet m -> forallb delivered later = true ->
  quiet (after later m) /\ state (after later m) = state m /\
  trace (after later m) = trace m /\
  textData (after later m) = textData m.
Proof.
  revert m. induction later as [|ev rest IH]; intros m Q Hall.
  - repeat split; apply Q.
  - cbn [forallb] in Hall. apply andb_prop in Hall as [Hev Hrest].
    cbn [after]. destruct (dispatch ev m) as [m'|] eqn:D.
    + destruct (quiet_delivered ev Q Hev D) as (Q' & Es & Et & Ed).
      destruct (IH m' Q' Hrest) as (Q'' & Es' & Et' & Ed').
      repeat split; try apply Q''; congruence.
    + repeat split; apply Q.
Qed.

(** X4: unmounting a reachable component leaves no fetch pending and no
    timer scheduled, drops the cached text and touches neither the state
    nor the clipboard writes in flight. When no write is in flight,
    whatever the browser delivers afterwards changes nothing: state,
    calls made and cached text stay as they are and nothing becomes
    pending or scheduled. *)
Theorem unmount_leaves_nothing_pending (m : Machine) :
  reachable m ->
  let m' := exec componentWillUnmount m in
  dispatch Unmounting m = Some m' /\
  outstandingFetches m' = [] /\
  timers m' = [] /\
  fetchPromise m' = None /\
  hideTimer m' = None /\
  textData m' = None /\
  state m' = state m /\
  writes m' = writes m /\
  noneOf isFetch (calls componentWillUnmount m) /\
  noneOf isSetTimeout (calls componentWillUnmount m) /\
  (writes m = [] ->
   forall later, forallb delivered later = true ->
     state (after later m') = state m /\
     trace (after later m') = trace m' /\
     textData (after later m') = None /\
     quiet (after later m')).
Proof.
  intros R m'.
  assert (H : dispatch Unmounting m = Some m' /\
              outstandingFetches m' = [] /\
              timers m' = [] /\
              fetchPromise m' = None /\
              hideTimer m' = None /\
              textData m' = None /\
              state m' = state m /\
              writes m' = writes m /\
              noneOf isFetch (calls componentWillUnmount m) /\
              noneOf isSetTimeout (calls componentWillUnmount m)).
  { subst m'. apply reachable_Invariant in R. unfold noneOf.
    split; [reflexivity|].
    shapes m R; evaluate; repeat split. }
  destruct H as (H1 & H2 & H3 & H4 & H5 & H6 & H7 & H8 & H9 & H10).
  do 10 (split; [assumption|]).
  intros Hw later Hall.
  assert (Q : quiet m').
  { unfold quiet. unfold outstandingFetches in H2.
    destruct (fetches m'); [|discriminate H2].
    rewrite H3, H8, Hw. repeat split. }
  destruct (quiet_after later Q Hall) as (Q' & Es & Et & Ed).
  repeat split; try apply Q'; congruence.
Qed.

(** X5: a cancel click on a reachable component leaves no fetch pending
    and hides the bar; copy state, button state, error, row count, cached
    text and the hide timer stay as they were, and the cancelled fetch
    can no longer settle. *)
Theorem cancel_click_stops_the_fetch (m : Machine) :
  reachable m ->
  let m' := exec handleCancelClick m in
  dispatch CancelClick m = Some m' /\
  outstandingFetches m' = [] /\
  fetchPromise m' = None /\
  state m' = with_isShown false (state m) /\
  textData m' = textData m /\
  hideTimer m' = hideTimer m /\
  timers m' = timers m /\
  noneOf isFetch (calls handleCancelClick m) /\
  noneOf isClipboardWrite (calls handleCancelClick m) /\
  (forall p text, dispatch (FetchFulfilled p text) m' = None) /\
  (forall p, dispatch (FetchRejected p) m' = None).
Proof.
  intros R m'. subst m'. apply reachable_Invariant in R. unfold noneOf.
  split; [reflexivity|].
  shapes m R; evaluate; repeat split.
Qed.

(** X6: when the scheduled timer of a reachable component fires, the bar
    is hidden and nothing else of the state changes; no timer is left, so
    it cannot fire a second time, and fetches and cached text are not
    touched. *)
Theorem hide_timer_fires_once (m : Machine) (t : TimerId) :
  reachable m ->
  In t (timers m) ->
  exists m',
    dispatch (TimerFired t) m = Some m' /\
    state m' = with_isShown false (state m) /\
    hideTimer m' = None /\
    timers m' = [] /\
    fetches m' = fetches m /\
    textData m' = textData m /\
    filter isSetTimeout (trace m') = filter isSetTimeout (trace m) /\
    forall t', dispatch (TimerFired t') m' = None.
Proof.
  intros R Ht. apply reachable_Invariant in R. unfold noneOf.
  shapes m R; cbn [timers] in Ht;
    first [destruct Ht as [<-|[]] | destruct Ht];
    (eexists; split; [normalise; handles; normalise; reflexivity|]);
    normalise; repeat split.
Qed.

(** X7: a click on the bar's background only hides the bar, and only in
    [DONE]: every other part of the component is as before and no call is
    made; in particular the hide timer keeps running, and when it fires
    the outcome is the one it would have had without the click. *)
Theorem background_click_only_dismisses_DONE (m : Machine) (t : TimerId) :
  let m' := exec handleBackgroundClick m in
  isShown (state m') =
    (if CopyState_eqb (copyState (state m)) DONE
     then false else isShown (state m)) /\
  set_state (state m) m' = m /\
  with_isShown (isShown (state m)) (state m') = state m /\
  calls handleBackgroundClick m = [] /\
  dispatch (TimerFired t) m' = dispatch (TimerFired t) m.
Proof.
  intros m'. subst m'.
  destruct m as [op [err c b shown n] td ht fp fr fs cs ws ts tr].
  destruct c; normalise; repeat split;
    destruct (mem t ts); destruct ht; reflexivity.
Qed.

(** X8: when the operation of a reachable component is taken away
    (props go from an operation to null), the bar is hidden, the pending
    fetch and the timer are cancelled, the cached text is dropped and
    nothing is fetched or scheduled; copy state, button state, error and
    row count stay as they were. With no operation before either,
    nothing at all happens. *)
Theorem operation_removed (m : Machine) :
  reachable m ->
  let m' := exec (componentDidUpdate None) m in
  match props_copyOperation m with
  | None => m' = m
  | Some _ =>
      state m' = with_isShown false (state m) /\
      props_copyOperation m' = None /\
      outstandingFetches m' = [] /\
      timers m' = [] /\
      textData m' = None /\
      noneOf isFetch (calls (componentDidUpdate None) m) /\
      noneOf isSetTimeout (calls (componentDidUpdate None) m)
  end.
Proof.
  intros R m'. subst m'. apply reachable_Invariant in R. unfold noneOf.
  shapes m R; destruct op; evaluate; repeat split.
Qed.

(** X9: after the prompt for a large ranges operation, a copy click
    issues the snapshot fetch of those ranges: [FETCH_RANGES_IN_PROGRESS]
    with the button fetching, the status text counting the rows, one
    promise made and held, and no clipboard write yet. *)
Theorem confirm_click_fetches
        (m : Machine) (copyOperation : CopyOperation)
        (selected : list GridRange) :
  props_copyOperation m = Some copyOperation ->
  op_error copyOperation = None ->
  ranges copyOperation = Some selected ->
  columnIndex copyOperation = None ->
  GridRange_rowCount selected > 10000 ->
  let m1 := exec startCopy m in
  let m2 := exec handleCopyClick m1 in
  copyState (state m1) = CONFIRMATION_REQUIRED /\
  statusMessageText (state m1) =
    "Are you sure you want to copy "
      ++ toLocaleString (GridRange_rowCount selected)
      ++ " rows to your clipboard?" /\
  copyState (state m2) = FETCH_RANGES_IN_PROGRESS /\
  buttonState (state m2) = FETCH_IN_PROGRESS /\
  statusMessageText (state m2) =
    "Fetching " ++ toLocaleString (GridRange_rowCount selected)
      ++ " rows for clipboard..." /\
  calls handleCopyClick m1 =
    [MakeCancelable (fresh m1)
       (TextSnapshot
          (visibleModelRanges selected (userColumnWidths copyOperation)
                              (movedColumns copyOperation))
          (includeHeaders copyOperation)
          (chooseFormatter (formatValues copyOperation)))] /\
  fetchPromise m2 = Some (fresh m1).
Proof.
  intros Hop Herr Hranges Hcol Hrows m1 m2. subst m1 m2.
  by_cases m; [|discriminate]. injection Hop as <-.
  cbn [op_error ranges columnIndex userColumnWidths movedColumns
       includeHeaders formatValues] in *.
  subst oe rs ci.
  assert (G : (GridRange_rowCount selected >? NO_PROMPT_THRESHOLD) = true).
  { unfold NO_PROMPT_THRESHOLD. rewrite Z.gtb_ltb. apply Z.ltb_lt. lia. }
  outcome_first startCopy; try congruence.
  all: evaluate; repeat split.
Qed.

(** X10: when the pending snapshot of a reachable component is rejected
    by the model, the button reads "Retry", and a click on it issues the
    same snapshot request again, under a new handle, and shows the fetch
    as in progress; nothing is written to the clipboard. *)
Theorem retry_fetches_again
        (m : Machine) (p : PromiseId) (modelRanges : list GridRange)
        (headers : bool) (formatValue : Formatter) :
  reachable m ->
  find_handle p (fetches m)
    = Some (TextSnapshot modelRanges headers formatValue) ->
  exists m1 m2,
    dispatch (FetchRejected p) m = Some m1 /\
    copyState (state m1) = FETCH_ERROR /\
    getCopyButtonText (buttonState (state m1)) = "Retry" /\
    isFetching (state m1) = false /\
    outstandingFetches m1 = [] /\
    dispatch CopyClick m1 = Some m2 /\
    fetches m2
      = [(fresh m, TextSnapshot modelRanges headers formatValue)] /\
    fetchPromise m2 = Some (fresh m) /\
    copyState (state m2) = FETCH_RANGES_IN_PROGRESS /\
    isFetching (state m2) = true /\
    filter isClipboardWrite (trace m2) = filter isClipboardWrite (trace m).
Proof.
  intros R Hp.
  pose proof (coh_pending (reachable_Coherent R)) as Hpending.
  apply reachable_Invariant in R.
  shapes m R; cbn [fetches] in Hp; try discriminate;
    apply find_handle_singleton in Hp; destruct Hp as [-> <-];
    destruct (Hpending _ _ eq_refl) as [Htd Hreq];
    cbn [textData props_copyOperation] in Htd, Hreq; subst td;
    operation op; try discriminate;
    cbn [requested columnIndex ranges movedColumns columnDepth
         userColumnWidths includeHeaders formatValues] in Hreq;
    (destruct ci as [column|];
     [destruct (model_textForColumnHeader _ _); discriminate|]);
    (destruct rs as [selected|]; [|discriminate]);
    injection Hreq as <- <- <-.
  all: eexists; eexists.
  all: split; [normalise; handles; normalise; reflexivity|].
  all: do 4 (split; [reflexivity|]).
  all: split; [normalise; handles; normalise; reflexivity|].
  all: normalise; repeat split.
Qed.

(** X11: a clipboard write in flight is not cancelled by a new
    operation: [startCopy] leaves it in flight, and when it then succeeds
    the component goes to [DONE] and schedules the hide timer whatever
    the new operation is doing: its pending fetch stays pending and the
    cached text stays dropped. *)
Theorem write_in_flight_outlives_the_operation
        (m : Machine) (next : CopyOperation)
        (w : WriteId) (text : string) (site : CopySite) :
  find_handle w (writes m) = Some (text, site) ->
  let m1 := exec (componentDidUpdate (Some next)) m in
  writes m1 = writes m /\
  textData m1 = None /\
  exists m2,
    dispatch (ClipboardSettled w true) m1 = Some m2 /\
    copyState (state m2) = DONE /\
    hideTimer m2 = Some (fresh m1) /\
    fetches m2 = fetches m1 /\
    fetchPromise m2 = fetchPromise m1 /\
    textData m2 = None.
Proof.
  intros Hw m1. subst m1.
  assert (Hkept : writes (exec (componentDidUpdate (Some next)) m)
                  = writes m /\
                  textData (exec (componentDidUpdate (Some next)) m)
                  = None).
  { destruct m as [op st td ht fp fr fs cs ws ts tr].
    destruct next as [mc oe rs ih fv ucw ci cd].
    evaluate; split; reflexivity. }
  destruct Hkept as [Hwrites Htext].
  split; [exact Hwrites|]. split; [exact Htext|].
  rewrite <- Hwrites in Hw. revert Hw Htext.
  generalize (exec (componentDidUpdate (Some next)) m). clear.
  intros [op st td ht fp fr fs cs ws ts tr] Hw Htext.
  cbn [writes textData] in Hw, Htext. subst td.
  eexists. split.
  - cbn [dispatch writes]. rewrite Hw.
    destruct site; reflexivity.
  - destruct site, ht as [t|]; normalise; repeat split.
Qed.

(** X12: a copy click with no operation and no cached text fetches
    nothing and writes nothing: [startFetch] throws on the null
    operation, its promise is rejected unhandled, and the component is
    left as it was. *)
Theorem copy_click_without_operation (m : Machine) :
  reachable m ->
  props_copyOperation m = None ->
  textData m = None ->
  let m' := exec handleCopyClick m in
  In UnhandledRejection (calls handleCopyClick m) /\
  noneOf isFetch (calls handleCopyClick m) /\
  noneOf isClipboardWrite (calls handleCopyClick m) /\
  state m' = state m /\
  outstandingFetches m' = [] /\
  writes m' = writes m /\
  timers m' = timers m.
Proof.
  intros R Hop Htd m'. subst m'. unfold noneOf.
  pose proof (coh_pending (reachable_Coherent R)) as Hpending.
  apply reachable_Invariant in R.
  shapes m R; cbn [props_copyOperation textData] in *; subst.
  3, 4: destruct (Hpending _ _ eq_refl) as [_ Hreq]; discriminate Hreq.
  all: evaluate; repeat split; auto with datatypes.
Qed.


(** X14: for an operation with ranges and no [columnIndex], [startFetch]
    shows the fetch as in progress and asks the model for one snapshot:
    of the model ranges of the selection, less the hidden columns when
    there are any, with the operation's header flag, formatted by the
    model's display strings exactly when [formatValues] is true. It
    leaves error, row count, cached text and timer as they are and
    writes nothing to the clipboard. *)
Theorem startFetch_ranges_request
        (m : Machine) (copyOperation : CopyOperation)
        (selected : list GridRange) :
  props_copyOperation m = Some copyOperation ->
  columnIndex copyOperation = None ->
  ranges copyOperation = Some selected ->
  let m' := exec startFetch m in
  let hidden :=
    IrisGridUtils_getHiddenColumns (userColumnWidths copyOperation) in
  let modelRanges :=
    GridUtils_getModelRanges selected (movedColumns copyOperation) in
  state m' =
    with_copyState FETCH_RANGES_IN_PROGRESS
      (with_buttonState FETCH_IN_PROGRESS (state m)) /\
  filter isFetch (calls startFetch m) =
    [MakeCancelable (fresh m)
       (TextSnapshot
          match hidden with
          | [] => modelRanges
          | _ :: _ =>
              GridRange_subtractRangesFromRanges modelRanges
                (map GridRange_makeColumn hidden)
          end
          (includeHeaders copyOperation)
          match formatValues copyOperation with
          | Some true => DisplayString
          | Some false | None => TemplateString
          end)] /\
  fetchPromise m' = Some (fresh m) /\
  noneOf isClipboardWrite (calls startFetch m) /\
  textData m' = textData m /\
  hideTimer m' = hideTimer m.
Proof.
  intros Hop Hcol Hranges m' hidden modelRanges.
  subst m' hidden modelRanges. unfold noneOf.
  by_cases m; [|discriminate]. injection Hop as <-.
  cbn [columnIndex ranges userColumnWidths movedColumns includeHeaders
       formatValues] in *.
  subst ci rs.
  assert (Hvisible :
            visibleModelRanges selected ucw mc =
            match IrisGridUtils_getHiddenColumns ucw with
            | [] => GridUtils_getModelRanges selected mc
            | _ :: _ =>
                GridRange_subtractRangesFromRanges
                  (GridUtils_getModelRanges selected mc)
                  (map GridRange_makeColumn
                       (IrisGridUtils_getHiddenColumns ucw))
            end).
  { unfold visibleModelRanges.
    destruct (IrisGridUtils_getHiddenColumns ucw); reflexivity. }
  assert (Hformat :
            chooseFormatter fv =
            match fv with
            | Some true => DisplayString
            | Some false | None => TemplateString
            end).
  { destruct fv as [[|]|]; reflexivity. }
  rewrite <- Hvisible, <- Hformat.
  evaluate; repeat split.
Qed.

End Properties.

(* ================================================================== *)
(** * The scenarios of the specification, on the test double *)
(* ================================================================== *)

#[local] Existing Instance Mock.collaborators.

(** Five rows with headers: fetched at once, copied, [DONE] with
    "Copied to Clipboard!". *)
Example scenario_five_rows :
  exists m1 m2,
    dispatch (FetchFulfilled 0%nat "a,b") Mock.fetching = Some m1 /\
    dispatch (ClipboardSettled 1%nat true) m1 = Some m2 /\
    filter isFetch (trace m2)
      = [MakeCancelable 0%nat (TextSnapshot [5] true TemplateString)] /\
    copyState (state m2) = DONE /\
    statusMessageText (state m2) = "Copied to Clipboard!" /\
    timers m2 = [2%nat].
Proof. do 2 eexists. repeat split; vm_compute; reflexivity. Qed.

(** Twenty thousand rows: the handler stops at the prompt, and fetches
    only once the copy button is clicked. *)
Example scenario_twenty_thousand_rows :
  let m := mounted (Some (Mock.rangesOperation 20000)) in
  copyState (state m) = CONFIRMATION_REQUIRED /\
  statusMessageText (state m)
    = "Are you sure you want to copy 20,000 rows to your clipboard?" /\
  trace m = [] /\
  option_map trace (dispatch CopyClick m)
    = Some [MakeCancelable 0%nat (TextSnapshot [20000] true TemplateString)].
Proof. repeat split; vm_compute; reflexivity. Qed.

(* ================================================================== *)
(** * The theorems at concrete inputs *)
(* ================================================================== *)

Lemma startCopy_prompt_threshold_witness :
  let m := constructed (Some (Mock.rangesOperation 5)) in
  props_copyOperation m = Some (Mock.rangesOperation 5) /\
  op_error (Mock.rangesOperation 5) = None /\
  ranges (Mock.rangesOperation 5) = Some [5] /\
  columnIndex (Mock.rangesOperation 5) = None /\
  GridRange_rowCount [5] <= 10000 /\
  copyState (state (exec startCopy m)) = FETCH_RANGES_IN_PROGRESS /\
  fetchPromise (exec startCopy m) = Some 0%nat.
Proof.
  intros m. do 5 (split; [vm_compute; first [reflexivity | discriminate]|]).
  destruct (@startCopy_prompt_threshold Mock.collaborators m
              (Mock.rangesOperation 5) [5]
              eq_refl eq_refl eq_refl) as [_ W].
  destruct (W eq_refl) as (A & _ & B & _).
  - vm_compute. discriminate.
  - split; [exact A | exact B].
Defined.


Lemma handleCopyClick_cached_witness :
  textData Mock.clickRequired = Some "a,b" /\
  calls handleCopyClick Mock.clickRequired = [CopyToClipboard 2%nat "a,b"] /\
  exists m2,
    dispatch (ClipboardSettled 2%nat false)
             (exec handleCopyClick Mock.clickRequired) = Some m2 /\
    copyState (state m2) = CLICK_REQUIRED /\
    error (state m2)
      = Some "Unable to copy. Verify your browser permissions.".
Proof.
  split; [reflexivity|].
  destruct (@handleCopyClick_cached Mock.collaborators Mock.clickRequired
              "a,b" eq_refl)
    as (A & _ & (m2 & B & C & _ & D & _) & _).
  split; [exact A|]. exists m2. repeat split; assumption.
Defined.

Lemma invalid_header_DONE_without_timer_witness :
  let m := mounted (Some (Mock.rangesOperation 5)) in
  let m' := exec (componentDidUpdate (Some (Mock.headerOperation 3))) m in
  reachable m /\
  model_textForColumnHeader 3 0 = None /\
  copyState (state m') = DONE /\
  isShown (state m') = true /\
  hideTimer m' = None /\
  timers m' = [].
Proof.
  intros m m'. split; [apply reachable_mounted|]. split; [reflexivity|].
  destruct (@invalid_header_DONE_without_timer Mock.collaborators m
              (Mock.headerOperation 3) 3
              (reachable_mounted (Some (Mock.rangesOperation 5)))
              eq_refl eq_refl eq_refl eq_refl)
    as (A & B & C & D & _).
  repeat split; assumption.
Defined.

Lemma fetch_rejected_or_cancelled_witness :
  reachable Mock.fetching /\
  find_handle 0%nat (fetches Mock.fetching)
    = Some (@TextSnapshot Mock.collaborators [5] true TemplateString) /\
  (exists m', dispatch (FetchRejected 0%nat) Mock.fetching = Some m' /\
              copyState (state m') = FETCH_ERROR /\
              buttonState (state m') = RETRY) /\
  (exists m1 m2,
     dispatch CancelClick Mock.fetching = Some m1 /\
     dispatch (CancelObserved 0%nat) m1 = Some m2 /\
     copyState (state m2) = FETCH_RANGES_IN_PROGRESS /\
     error (state m2) = None).
Proof.
  split; [apply reachable_mounted|]. split; [reflexivity|].
  destruct (@fetch_rejected_or_cancelled Mock.collaborators Mock.fetching 0%nat
              (@TextSnapshot Mock.collaborators [5] true TemplateString)
              OtherError
              (reachable_mounted (Some (Mock.rangesOperation 5))) eq_refl)
    as (A & _ & _ & B & (m1 & m2 & C & D & E & _ & _ & F & _)).
  split.
  - eexists. split; [exact B|].
    destruct A as [_ A]. destruct A as (A1 & A2); [discriminate|].
    split; assumption.
  - exists m1, m2. repeat split; assumption.
Defined.

Lemma startFetch_invalid_header_witness :
  let m := constructed (Some (Mock.headerOperation 3)) in
  columnIndex (Mock.headerOperation 3) = Some 3 /\
  model_textForColumnHeader 3 0 = None /\
  error (state (exec startFetch m)) = Some "Invalid column header selected." /\
  copyState (state (exec startFetch m)) = DONE /\
  writes (exec startFetch m) = [].
Proof.
  intros m. split; [reflexivity|]. split; [reflexivity|].
  destruct (@startFetch_invalid_header Mock.collaborators m
              (Mock.headerOperation 3) 3
              eq_refl eq_refl eq_refl)
    as (A & B & _ & _ & _ & C & _).
  repeat split; assumption.
Defined.

Lemma startCopy_preset_error_witness :
  let m := constructed (Some (Mock.failedOperation "Nothing to copy")) in
  op_error (Mock.failedOperation "Nothing to copy") = Some "Nothing to copy" /\
  copyState (state (exec startCopy m)) = DONE /\
  statusMessageText (state (exec startCopy m)) = "Nothing to copy" /\
  hideTimer (exec startCopy m) = Some 0%nat.
Proof.
  intros m. split; [reflexivity|].
  destruct (@startCopy_preset_error Mock.collaborators m
              (Mock.failedOperation "Nothing to copy") "Nothing to copy"
              eq_refl eq_refl)
    as (A & _ & _ & B & C & _).
  repeat split; assumption.
Defined.

Lemma one_fetch_one_timer_witness :
  let m := Mock.fetching in
  let m' := exec (componentDidUpdate (Some (Mock.rangesOperation 7))) m in
  reachable m /\
  outstandingFetches m = [0%nat] /\
  ~ In 0%nat (outstandingFetches m') /\
  In 0%nat (cancelled m') /\
  (List.length (outstandingFetches m') <= 1)%nat.
Proof.
  intros m m'. split; [apply reachable_mounted|]. split; [reflexivity|].
  destruct (@one_fetch_one_timer Mock.collaborators m (Mock.rangesOperation 7)
              (reachable_mounted (Some (Mock.rangesOperation 5))))
    as (_ & _ & _ & _ & A & _ & _ & B & _).
  destruct (A 0%nat) as [A1 A2]; [left; reflexivity|].
  repeat split; assumption.
Defined.

Lemma discriminators_read_different_fields_witness :
  let m := constructed (Some (Mock.bothOperation 20000 0)) in
  ranges (Mock.bothOperation 20000 0) = Some [20000] /\
  columnIndex (Mock.bothOperation 20000 0) = Some 0 /\
  GridRange_rowCount [20000] > 10000 /\
  copyState (state (exec startCopy m)) = CONFIRMATION_REQUIRED /\
  copyState (state (exec startFetch m)) = FETCH_HEADER_IN_PROGRESS /\
  filter isFetch (calls startFetch m)
    = [MakeCancelable 0%nat (HeaderText "Name")].
Proof.
  intros m. split; [reflexivity|]. split; [reflexivity|].
  split; [reflexivity|].
  destruct (@discriminators_read_different_fields Mock.collaborators m
              (Mock.bothOperation 20000 0) [20000] 0
              eq_refl eq_refl eq_refl eq_refl)
    as (_ & _ & _ & _ & _ & A & B & _).
  destruct A as [A _]; [reflexivity|].
  cbn in B. destruct B as [B1 B2].
  repeat split; assumption.
Defined.

(** ** Beyond the claims *)

Lemma reachable_fetching : reachable Mock.fetching.
Proof. apply reachable_mounted. Qed.

Lemma reachable_clickRequired : reachable Mock.clickRequired.
Proof.
  assert (E : Mock.clickRequired =
              after [FetchFulfilled 0%nat "a,b"; ClipboardSettled 1%nat false]
                    Mock.fetching)
    by (vm_compute; reflexivity).
  rewrite E. apply reachable_after, reachable_fetching.
Qed.

Lemma reachable_copied : reachable Mock.copied.
Proof. apply reachable_after, reachable_fetching. Qed.

Lemma rowCount_of_current_ranges_witness :
  reachable Mock.fetching /\
  props_copyOperation Mock.fetching = Some (Mock.rangesOperation 5) /\
  rowCount (state Mock.fetching) = 5.
Proof.
  split; [exact reachable_fetching|]. split; [vm_compute; reflexivity|].
  exact (@rowCount_of_current_ranges Mock.collaborators Mock.fetching
           (Mock.rangesOperation 5) [5]
           reachable_fetching eq_refl eq_refl eq_refl).
Defined.

Lemma button_label_follows_copy_state_witness :
  reachable Mock.clickRequired /\
  getCopyButtonText (buttonState (state Mock.clickRequired))
    = "Click to Copy" /\
  isFetching (state Mock.clickRequired) = false.
Proof.
  split; [exact reachable_clickRequired|].
  exact (@button_label_follows_copy_state Mock.collaborators
           Mock.clickRequired reachable_clickRequired).
Defined.

Lemma unmount_leaves_nothing_pending_witness :
  let m' := exec componentWillUnmount Mock.fetching in
  let later := [CancelObserved 0%nat; TimerFired 1%nat] in
  reachable Mock.fetching /\
  writes Mock.fetching = [] /\
  forallb delivered later = true /\
  outstandingFetches Mock.fetching = [0%nat] /\
  outstandingFetches m' = [] /\
  state (after later m') = state Mock.fetching /\
  trace (after later m') = trace m'.
Proof.
  intros m' later.
  split; [exact reachable_fetching|]. split; [vm_compute; reflexivity|].
  split; [reflexivity|]. split; [vm_compute; reflexivity|].
  destruct (@unmount_leaves_nothing_pending Mock.collaborators
              Mock.fetching reachable_fetching)
    as (_ & A & _ & _ & _ & _ & _ & _ & _ & _ & B).
  assert (Hw : writes Mock.fetching = []) by (vm_compute; reflexivity).
  destruct (B Hw later eq_refl) as (C & D & _).
  split; [exact A|]. split; [exact C|exact D].
Defined.

Lemma cancel_click_stops_the_fetch_witness :
  reachable Mock.fetching /\
  outstandingFetches (exec handleCancelClick Mock.fetching) = [] /\
  copyState (state (exec handleCancelClick Mock.fetching))
    = FETCH_RANGES_IN_PROGRESS /\
  isShown (state (exec handleCancelClick Mock.fetching)) = false.
Proof.
  split; [exact reachable_fetching|].
  destruct (@cancel_click_stops_the_fetch Mock.collaborators
              Mock.fetching reachable_fetching)
    as (_ & A & _ & B & _).
  split; [exact A|]. rewrite B. split; vm_compute; reflexivity.
Defined.

Lemma hide_timer_fires_once_witness :
  reachable Mock.copied /\
  In 2%nat (timers Mock.copied) /\
  exists m',
    dispatch (TimerFired 2%nat) Mock.copied = Some m' /\
    isShown (state m') = false /\
    copyState (state m') = DONE /\
    dispatch (TimerFired 2%nat) m' = None.
Proof.
  assert (Hin : In 2%nat (timers Mock.copied))
    by (vm_compute; left; reflexivity).
  split; [exact reachable_copied|]. split; [exact Hin|].
  destruct (@hide_timer_fires_once Mock.collaborators Mock.copied 2%nat
              reachable_copied Hin)
    as (m' & A & B & _ & _ & _ & _ & _ & C).
  exists m'. split; [exact A|]. rewrite B.
  split; [vm_compute; reflexivity|].
  split; [vm_compute; reflexivity|exact (C 2%nat)].
Defined.

Lemma operation_removed_witness :
  reachable Mock.fetching /\
  isShown (state (exec (componentDidUpdate None) Mock.fetching)) = false /\
  outstandingFetches (exec (componentDidUpdate None) Mock.fetching) = [].
Proof.
  split; [exact reachable_fetching|].
  pose proof (@operation_removed Mock.collaborators Mock.fetching
                reachable_fetching) as W.
  cbn [Mock.fetching] in W.
  destruct W as (A & _ & B & _).
  split; [rewrite A; vm_compute; reflexivity|exact B].
Defined.

Lemma confirm_click_fetches_witness :
  let m := constructed (Some (Mock.rangesOperation 20000)) in
  GridRange_rowCount [20000] > 10000 /\
  copyState (state (exec startCopy m)) = CONFIRMATION_REQUIRED /\
  statusMessageText (state (exec startCopy m)) =
    "Are you sure you want to copy 20,000 rows to your clipboard?" /\
  copyState (state (exec handleCopyClick (exec startCopy m)))
    = FETCH_RANGES_IN_PROGRESS.
Proof.
  intros m. split; [vm_compute; reflexivity|].
  destruct (@confirm_click_fetches Mock.collaborators m
              (Mock.rangesOperation 20000) [20000]
              eq_refl eq_refl eq_refl eq_refl eq_refl)
    as (A & B & C & _).
  split; [exact A|]. split; [exact B|exact C].
Defined.

Lemma retry_fetches_again_witness :
  reachable Mock.fetching /\
  find_handle 0%nat (fetches Mock.fetching)
    = Some (@TextSnapshot Mock.collaborators [5] true TemplateString) /\
  exists m2,
    fetches m2
      = [(1%nat, @TextSnapshot Mock.collaborators [5] true TemplateString)] /\
    copyState (state m2) = FETCH_RANGES_IN_PROGRESS.
Proof.
  split; [exact reachable_fetching|]. split; [vm_compute; reflexivity|].
  destruct (@retry_fetches_again Mock.collaborators Mock.fetching 0%nat
              [5] true TemplateString reachable_fetching eq_refl)
    as (m1 & m2 & _ & _ & _ & _ & _ & _ & A & _ & B & _).
  exists m2. split; [exact A|exact B].
Defined.

Lemma write_in_flight_outlives_the_operation_witness :
  let m1 :=
    exec (componentDidUpdate (Some (Mock.rangesOperation 7))) Mock.writing in
  find_handle 2%nat (writes Mock.writing) = Some ("a,b", InHandleCopyClick) /\
  exists m2,
    dispatch (ClipboardSettled 2%nat true) m1 = Some m2 /\
    copyState (state m2) = DONE /\
    outstandingFetches m2 = [3%nat] /\
    textData m2 = None.
Proof.
  intros m1. split; [vm_compute; reflexivity|].
  destruct (@write_in_flight_outlives_the_operation Mock.collaborators
              Mock.writing (Mock.rangesOperation 7) 2%nat "a,b"
              InHandleCopyClick eq_refl)
    as (_ & _ & m2 & A & B & _ & C & _ & D).
  exists m2. split; [exact A|]. split; [exact B|].
  split; [unfold outstandingFetches; rewrite C; vm_compute; reflexivity|exact D].
Defined.

Lemma copy_click_without_operation_witness :
  reachable (mounted None) /\
  props_copyOperation (mounted None) = None /\
  In UnhandledRejection (calls handleCopyClick (mounted None)) /\
  state (exec handleCopyClick (mounted None)) = state (mounted None).
Proof.
  split; [apply reachable_mounted|]. split; [vm_compute; reflexivity|].
  destruct (@copy_click_without_operation Mock.collaborators (mounted None)
              (reachable_mounted None) eq_refl eq_refl)
    as (A & _ & _ & B & _).
  split; [exact A|exact B].
Defined.


Lemma startFetch_ranges_request_witness :
  let m := constructed (Some (Mock.rangesOperation 5)) in
  columnIndex (Mock.rangesOperation 5) = None /\
  ranges (Mock.rangesOperation 5) = Some [5] /\
  copyState (state (exec startFetch m)) = FETCH_RANGES_IN_PROGRESS /\
  filter isFetch (calls startFetch m) =
    [MakeCancelable 0%nat (TextSnapshot [5] true TemplateString)].
Proof.
  intros m. split; [vm_compute; reflexivity|]. split; [vm_compute; reflexivity|].
  destruct (@startFetch_ranges_request Mock.collaborators m
              (Mock.rangesOperation 5) [5] eq_refl eq_refl eq_refl)
    as (A & B & _).
  split; [rewrite A; vm_compute; reflexivity|exact B].
Defined.

(** ** Where C2 and C5 fail as first stated *)

Lemma reachable_staleError : reachable Mock.staleError.
Proof.
  apply reachable_after, reachable_after, reachable_clickRequired.
Qed.



(** C5 as first stated fails at [staleError]: the model rejects the
    pending snapshot, the handler is in [FETCH_ERROR] with [RETRY], and
    the message rendered is the permissions error of the earlier click,
    not "Unable to copy data.". *)
Lemma fetch_rejected_or_cancelled_counterexample :
  reachable Mock.staleError /\
  find_handle 3%nat (fetches Mock.staleError)
    = Some (@TextSnapshot Mock.collaborators [7] true TemplateString) /\
  exists m',
    dispatch (FetchRejected 3%nat) Mock.staleError = Some m' /\
    copyState (state m') = FETCH_ERROR /\
    buttonState (state m') = RETRY /\
    statusMessageText (state m')
      = "Unable to copy. Verify your browser permissions." /\
    statusMessageText (state m') <> "Unable to copy data.".
Proof.
  split; [exact reachable_staleError|].
  split; [vm_compute; reflexivity|].
  eexists.
  split; [vm_compute; reflexivity|].
  split; [vm_compute; reflexivity|].
  split; [vm_compute; reflexivity|].
  split; [vm_compute; reflexivity|].
  vm_compute. discriminate.
Qed.
